(** * The Discord server resource of the Terraform provider

    A shallow embedding of [discord/resource_discord_server.go]: the
    resource schema with its field validators, the six CRUD handlers of
    the [discord_server] and [discord_managed_server] resources, and the
    properties of the handlers as sequences of Discord API calls.

    - Go [int] and [uint] values are integers in [Z]; the conversions
      between the two are written out as 64-bit wrap-around.
    - A Go [error] is identified with the text of its [Error()] method.
    - [*schema.ResourceData] is a record holding the prior state and the
      planned attribute values as finite maps from field names to values.
    - The Discord client is an arbitrary transition system over a state
      type [St]; every request a handler makes is appended to a log. *)

From stdpp Require Import gmap strings list fin_maps pretty.
From Stdlib Require Import ZArith Lia Ascii Btauto.

Open Scope Z_scope.

(** ** Go integers and formatting *)

(** [uint(v)] for an [int] v, and [int(u)] for a [uint] u (64 bits). *)
Definition to_uint (v : Z) : Z := v `mod` 2 ^ 64.
Definition to_int (u : Z) : Z := (u + 2 ^ 63) `mod` 2 ^ 64 - 2 ^ 63.

(** The [%d] verb of package [fmt], on an integer and on a slice. *)
Definition fmt_d (v : Z) : string := pretty v.
Definition fmt_d_slice (l : list Z) : string :=
  "[" +:+ String.concat " " (fmt_d <$> l) +:+ "]".

(** A Go [error], by its message. *)
Definition error : Type := string.

(** [fmt.Errorf] with the formats used by the validators. *)
Definition Errorf_got (format : string) (v : Z) : error := format +:+ fmt_d v.

(** ** Field validators of [baseServerSchema] *)

(** The signature of [schema.SchemaValidateFunc], at a [TypeInt] field:
    [val.(int)] is the integer itself. *)
Definition SchemaValidateFunc : Type := Z → string → list string * list error.

Definition validate_verification_level : SchemaValidateFunc := λ val key,
  let v := val in
  let warns : list string := [] in
  let errors : list error := [] in
  let errors :=
    if (v >? 4) || (v <? 0)
    then errors ++ [Errorf_got "verification_level must be between 0 and 4 inclusive, got: " v]
    else errors in
  (warns, errors).

Definition validate_explicit_content_filter : SchemaValidateFunc := λ val key,
  let v := val in
  let warns : list string := [] in
  let errors : list error := [] in
  let errors :=
    if (v >? 2) || (v <? 0)
    then errors ++ [Errorf_got "explicit_content_filter must be between 0 and 2 inclusive, got: " v]
    else errors in
  (warns, errors).

Definition validate_default_message_notifications : SchemaValidateFunc := λ val key,
  let v := val in
  let warns : list string := [] in
  let errors : list error := [] in
  let errors :=
    if negb (v =? 0) && negb (v =? 1)
    then errors ++ [Errorf_got "default_message_notifications must be 0 or 1, got: " v]
    else errors in
  (warns, errors).

(** Modelled from the spec: [contains] is a helper of this package that is
    declared outside resource_discord_server.go.  The spec gives the
    accepted values of afk_timeout as the set {60,300,900,1800,3600}, so
    [contains array value] is membership of [value] in the slice. *)
Fixpoint contains (array : list Z) (value : Z) : bool :=
  match array with
  | [] => false
  | a :: rest => if a =? value then true else contains rest value
  end.

Definition afk_timeout_expected : list Z := [60; 300; 900; 1800; 3600].

Definition validate_afk_timeout : SchemaValidateFunc := λ val key,
  let v := val in
  let warns : list string := [] in
  let errors : list error := [] in
  let expected := afk_timeout_expected in
  let errors :=
    if negb (contains expected v)
    then errors ++ ["afk_timeout must be set to one of the following values: "
                    +:+ fmt_d_slice expected +:+ ", but got: " +:+ fmt_d v]
    else errors in
  (warns, errors).

(** ** The resource schema *)

Inductive ValueType := TypeString | TypeInt.

(** An [interface{}] value read from or written to the resource data. *)
Inductive Value :=
| VNil
| VString (s : string)
| VInt (n : Z).

Global Instance Value_eq_dec : EqDecision Value.
Proof. solve_decision. Defined.

Record Schema := {
  Type_ : ValueType;
  Optional : bool;
  Required : bool;
  Computed : bool;
  Default : option Value;
  ValidateFunc : option SchemaValidateFunc;
}.

Definition stringField (optional required computed : bool) : Schema :=
  {| Type_ := TypeString; Optional := optional; Required := required;
     Computed := computed; Default := None; ValidateFunc := None |}.

Definition intField (default : Z) (validate : SchemaValidateFunc) : Schema :=
  {| Type_ := TypeInt; Optional := true; Required := false;
     Computed := false; Default := Some (VInt default);
     ValidateFunc := Some validate |}.

Definition baseServerSchema : gmap string Schema :=
  list_to_map [
    ("region", stringField true false false);
    ("verification_level", intField 0 validate_verification_level);
    ("explicit_content_filter", intField 0 validate_explicit_content_filter);
    ("default_message_notifications", intField 0 validate_default_message_notifications);
    ("afk_channel_id", stringField true false false);
    ("afk_timeout", intField 300 validate_afk_timeout);
    ("icon_url", stringField true false false);
    ("icon_data_uri", stringField true false false);
    ("icon_hash", stringField false false true);
    ("splash_url", stringField true false false);
    ("splash_data_uri", stringField true false false);
    ("splash_hash", stringField false false true);
    ("owner_id", stringField true false false)
  ].

Definition managedServerSchema : gmap string Schema :=
  let res := baseServerSchema in
  let res := <["server_id" := stringField false true false]> res in
  let res := <["name" := stringField true false false]> res in
  res.

Definition serverSchema : gmap string Schema :=
  let res := baseServerSchema in
  let res := <["server_id" := stringField false false true]> res in
  let res := <["name" := stringField false true false]> res in
  res.

(** The two resources of this file: [resourceDiscordServer] and
    [resourceDiscordManagedServer]. *)
Inductive ResourceKind := DiscordServer | DiscordManagedServer.

Definition schemaOf (kind : ResourceKind) : gmap string Schema :=
  match kind with
  | DiscordServer => serverSchema
  | DiscordManagedServer => managedServerSchema
  end.

(** ** [schema.ResourceData] *)

(** The resource data a handler receives: the resource it belongs to, its
    ID, the attributes of the prior state and the planned attributes
    (configuration merged over the state, then every [d.Set]). *)
Record ResourceData := {
  rd_kind : ResourceKind;
  rd_id : string;
  rd_state : gmap string Value;
  rd_new : gmap string Value;
}.

Definition zeroValue (t : ValueType) : Value :=
  match t with
  | TypeString => VString ""
  | TypeInt => VInt 0
  end.

Definition hasType (v : Value) (t : ValueType) : bool :=
  match v, t with
  | VString _, TypeString => true
  | VInt _, TypeInt => true
  | _, _ => false
  end.

(** Reading a field out of one level: the stored value when it has the
    type the schema declares. *)
Definition readField (sch : Schema) (level : gmap string Value) (key : string) : option Value :=
  match level !! key with
  | Some v => if hasType v (Type_ sch) then Some v else None
  | None => None
  end.

(** [d.Get(key)]: the planned value, else the schema default, else the
    zero value of the field's type; nil for a key the schema lacks. *)
Definition Get (d : ResourceData) (key : string) : Value :=
  match schemaOf (rd_kind d) !! key with
  | None => VNil
  | Some sch =>
      match readField sch (rd_new d) key with
      | Some v => v
      | None => default (zeroValue (Type_ sch)) (Default sch)
      end
  end.

(** The old half of [d.GetChange(key)]: the value in the prior state, the
    zero value where the state has none. *)
Definition GetOld (d : ResourceData) (key : string) : Value :=
  match schemaOf (rd_kind d) !! key with
  | None => VNil
  | Some sch => default (zeroValue (Type_ sch)) (readField sch (rd_state d) key)
  end.

(** [d.GetOk(key)]: the value, and whether it is set to a non-zero value. *)
Definition GetOk (d : ResourceData) (key : string) : Value * bool :=
  match schemaOf (rd_kind d) !! key with
  | None => (VNil, false)
  | Some sch =>
      let v := Get d key in (v, bool_decide (v ≠ zeroValue (Type_ sch)))
  end.

(** [d.HasChange(key)]: old and new value differ. *)
Definition HasChange (d : ResourceData) (key : string) : bool :=
  bool_decide (GetOld d key ≠ Get d key).

(** [d.Set(key, value)]: refused, with an error, for a key outside the
    schema or a value of another type. *)
Definition Set_ (d : ResourceData) (key : string) (value : Value) : ResourceData * option error :=
  match schemaOf (rd_kind d) !! key with
  | None => (d, Some ("Invalid address to set: " +:+ key))
  | Some sch =>
      if hasType value (Type_ sch)
      then ({| rd_kind := rd_kind d; rd_id := rd_id d; rd_state := rd_state d;
               rd_new := <[key := value]> (rd_new d) |}, None)
      else (d, Some (key +:+ ": value of the wrong type"))
  end.

Definition Id (d : ResourceData) : string := rd_id d.

Definition SetId (d : ResourceData) (v : string) : ResourceData :=
  {| rd_kind := rd_kind d; rd_id := v; rd_state := rd_state d; rd_new := rd_new d |}.

(** The type assertions [v.(string)] ([toString] in the source) and
    [v.(int)].  [Get] returns a string at every [TypeString] field and an
    integer at every [TypeInt] field ([Get_string] and [Get_int] below), so
    the last branch of each is never taken by a handler. *)
Definition toString (v : Value) : string :=
  match v with VString s => s | _ => "" end.
Definition toInt (v : Value) : Z :=
  match v with VInt n => n | _ => 0 end.

(** ** Diagnostics *)

Inductive Severity := Error | Warning.

Record Diagnostic := { severity : Severity; Summary : string }.

Definition Diagnostics : Type := list Diagnostic.

(** [diag.Errorf(format, err.Error())] with a format ending in [%s]: one
    diagnostic of error severity. *)
Definition diag_Errorf (format : string) (arg : string) : Diagnostics :=
  [{| severity := Error; Summary := format +:+ arg |}].

(** ** The Discord client library *)

(** A snowflake is an unsigned 64-bit identifier. *)
Definition Snowflake : Type := N.

Definition IsZero (s : Snowflake) : bool := bool_decide (s = 0%N).

(** The functions this file calls that are declared elsewhere: the
    snowflake conversions of the client library, the image fetcher of
    [imgbase64], and [getId], a helper of this package declared in another
    file.  Nothing is assumed of them. *)
Class External := {
  ParseSnowflakeString : string → Snowflake;
  Snowflake_String : Snowflake → string;
  FromRemote : string → string;
  getId : string → Snowflake;
}.

(** The fields of [disgord.Guild] this file reads.  The levels and the
    AFK timeout are [uint] values. *)
Module Guild.
Record t := {
  ID : Snowflake;
  Name : string;
  Region : string;
  OwnerID : Snowflake;
  AfkChannelID : Snowflake;
  AfkTimeout : Z;
  Icon : string;
  Splash : string;
  VerificationLevel : Z;
  DefaultMessageNotifications : Z;
  ExplicitContentFilter : Z;
}.
End Guild.

Module Channel.
Record t := { ID : Snowflake }.
End Channel.

(** [disgord.CreateGuild], the parameters of a guild creation. *)
Module CreateGuild.
Record t := {
  Region : string;
  Icon : string;
  VerificationLvl : Z;
  DefaultMsgNotifications : Z;
  ExplicitContentFilter : Z;
  Channels : list Channel.t;
}.
End CreateGuild.

(** [disgord.UpdateGuild]: the pointer fields this file fills in, nil as
    [None].  The struct has no field for the AFK timeout. *)
Module UpdateGuild.
Record t := {
  Splash : option string;
  AFKChannelID : option Snowflake;
  OwnerID : option Snowflake;
}.
End UpdateGuild.

(** The builder returned by [UpdateBuilder()]: the parameters set so far. *)
Module UpdateBuilder.
Record t := {
  name : option string;
  region : option string;
  verification_level : option Z;
  default_message_notifications : option Z;
  explicit_content_filter : option Z;
  afk_channel_id : option Snowflake;
  afk_timeout : option Z;
  icon : option string;
  owner_id : option Snowflake;
  splash : option string;
}.

Definition new : t :=
  {| name := None; region := None; verification_level := None;
     default_message_notifications := None; explicit_content_filter := None;
     afk_channel_id := None; afk_timeout := None; icon := None;
     owner_id := None; splash := None |}.

Definition SetName (v : string) (b : t) : t :=
  {| name := Some v; region := region b; verification_level := verification_level b;
     default_message_notifications := default_message_notifications b;
     explicit_content_filter := explicit_content_filter b;
     afk_channel_id := afk_channel_id b; afk_timeout := afk_timeout b;
     icon := icon b; owner_id := owner_id b; splash := splash b |}.

Definition SetRegion (v : string) (b : t) : t :=
  {| name := name b; region := Some v; verification_level := verification_level b;
     default_message_notifications := default_message_notifications b;
     explicit_content_filter := explicit_content_filter b;
     afk_channel_id := afk_channel_id b; afk_timeout := afk_timeout b;
     icon := icon b; owner_id := owner_id b; splash := splash b |}.

Definition SetVerificationLevel (v : Z) (b : t) : t :=
  {| name := name b; region := region b; verification_level := Some v;
     default_message_notifications := default_message_notifications b;
     explicit_content_filter := explicit_content_filter b;
     afk_channel_id := afk_channel_id b; afk_timeout := afk_timeout b;
     icon := icon b; owner_id := owner_id b; splash := splash b |}.

Definition SetDefaultMessageNotifications (v : Z) (b : t) : t :=
  {| name := name b; region := region b; verification_level := verification_level b;
     default_message_notifications := Some v;
     explicit_content_filter := explicit_content_filter b;
     afk_channel_id := afk_channel_id b; afk_timeout := afk_timeout b;
     icon := icon b; owner_id := owner_id b; splash := splash b |}.

Definition SetExplicitContentFilter (v : Z) (b : t) : t :=
  {| name := name b; region := region b; verification_level := verification_level b;
     default_message_notifications := default_message_notifications b;
     explicit_content_filter := Some v;
     afk_channel_id := afk_channel_id b; afk_timeout := afk_timeout b;
     icon := icon b; owner_id := owner_id b; splash := splash b |}.

Definition SetAfkChannelID (v : Snowflake) (b : t) : t :=
  {| name := name b; region := region b; verification_level := verification_level b;
     default_message_notifications := default_message_notifications b;
     explicit_content_filter := explicit_content_filter b;
     afk_channel_id := Some v; afk_timeout := afk_timeout b;
     icon := icon b; owner_id := owner_id b; splash := splash b |}.

Definition SetAfkTimeout (v : Z) (b : t) : t :=
  {| name := name b; region := region b; verification_level := verification_level b;
     default_message_notifications := default_message_notifications b;
     explicit_content_filter := explicit_content_filter b;
     afk_channel_id := afk_channel_id b; afk_timeout := Some v;
     icon := icon b; owner_id := owner_id b; splash := splash b |}.

Definition SetIcon (v : string) (b : t) : t :=
  {| name := name b; region := region b; verification_level := verification_level b;
     default_message_notifications := default_message_notifications b;
     explicit_content_filter := explicit_content_filter b;
     afk_channel_id := afk_channel_id b; afk_timeout := afk_timeout b;
     icon := Some v; owner_id := owner_id b; splash := splash b |}.

Definition SetOwnerID (v : Snowflake) (b : t) : t :=
  {| name := name b; region := region b; verification_level := verification_level b;
     default_message_notifications := default_message_notifications b;
     explicit_content_filter := explicit_content_filter b;
     afk_channel_id := afk_channel_id b; afk_timeout := afk_timeout b;
     icon := icon b; owner_id := Some v; splash := splash b |}.

Definition SetSplash (v : string) (b : t) : t :=
  {| name := name b; region := region b; verification_level := verification_level b;
     default_message_notifications := default_message_notifications b;
     explicit_content_filter := explicit_content_filter b;
     afk_channel_id := afk_channel_id b; afk_timeout := afk_timeout b;
     icon := icon b; owner_id := owner_id b; splash := Some v |}.
End UpdateBuilder.

(** What a call of the client returns: a value or an error. *)
Inductive result (A : Type) :=
| Success (a : A)
| Failure (err : error).
Arguments Success {A} a.
Arguments Failure {A} err.

Definition errorOf {A} (r : result A) : option error :=
  match r with Success _ => None | Failure err => Some err end.

(** The requests this file sends to Discord. *)
Inductive ApiCall :=
| ApiCreateGuild (name : string) (params : CreateGuild.t)
| ApiGetChannels (guild : Snowflake)
| ApiDeleteChannel (channel : Snowflake)
| ApiUpdate (guild : Snowflake) (params : UpdateGuild.t)
| ApiExecute (guild : Snowflake) (builder : UpdateBuilder.t)
| ApiGetGuild (guild : Snowflake)
| ApiDeleteGuild (guild : Snowflake).

(** One entry of the request log: the request and the error it returned. *)
Record Event := { call : ApiCall; failed : option error }.

(** A Discord client over a state [St] (the remote side, as far as the
    client can tell): every method maps the state before the request to
    its answer and the state after it. *)
Class Client (St : Type) := {
  client_CreateGuild : string → CreateGuild.t → St → result Guild.t * St;
  client_GetChannels : Snowflake → St → result (list Channel.t) * St;
  client_DeleteChannel : Snowflake → St → result Channel.t * St;
  client_Update : Snowflake → UpdateGuild.t → St → result Guild.t * St;
  client_Execute : Snowflake → UpdateBuilder.t → St → result Guild.t * St;
  client_Get : Snowflake → St → result Guild.t * St;
  client_Delete : Snowflake → St → result unit * St;
}.


(** ** The handler monad *)

(** A handler runs against the resource data [d], the remote side, and the
    log of the requests made so far. *)
Record World (St : Type) := {
  w_d : ResourceData;
  w_api : St;
  w_log : list Event;
}.
Arguments w_d {St} w.
Arguments w_api {St} w.
Arguments w_log {St} w.

(** A step either goes on with a value or leaves the handler with the
    diagnostics of a [return diag.Errorf(...)]. *)
Inductive Outcome (A : Type) :=
| Continue (a : A)
| Return (diags : Diagnostics).
Arguments Continue {A} a.
Arguments Return {A} diags.

Definition M (St : Type) (A : Type) : Type := World St → Outcome A * World St.

Global Instance M_ret {St} : MRet (M St) := λ A a w, (Continue a, w).

Global Instance M_bind {St} : MBind (M St) := λ A B f m w,
  match m w with
  | (Continue a, w') => f a w'
  | (Return diags, w') => (Return diags, w')
  end.

(** [for _, x := range l { body }] *)
Fixpoint forRange {St A} (l : list A) (body : A → M St unit) : M St unit :=
  match l with
  | [] => mret ()
  | x :: rest => body x ≫= λ _, forRange rest body
  end.

(** [if cond { body }] *)
Definition when {St} (cond : bool) (body : M St unit) : M St unit :=
  if cond then body else mret ().

(** [return diags] before the end of the handler. *)
Definition returnDiags {St A} (diags : Diagnostics) : M St A := λ w, (Return diags, w).

(** [if err != nil { return diag.Errorf(format, err.Error()) }] *)
Definition orReturn {St A} (format : string) (r : result A) : M St A :=
  match r with
  | Success a => mret a
  | Failure err => returnDiags (diag_Errorf format err)
  end.

(** The handler's pointer [d]. *)
Definition getData {St} : M St ResourceData := λ w, (Continue (w_d w), w).

Definition d_SetId {St} (v : string) : M St unit := λ w,
  (Continue (), {| w_d := SetId (w_d w) v; w_api := w_api w; w_log := w_log w |}).

(** [d.Set(key, value)] as a statement: its error is dropped. *)
Definition d_Set {St} (key : string) (value : Value) : M St unit := λ w,
  (Continue (), {| w_d := (Set_ (w_d w) key value).1; w_api := w_api w; w_log := w_log w |}).

(** A request: the client method is applied to the remote side and the
    request is logged with its error. *)
Definition request {St A} (c : ApiCall) (method : St → result A * St) : M St (result A) := λ w,
  let '(r, api) := method (w_api w) in
  (Continue r,
   {| w_d := w_d w; w_api := api;
      w_log := w_log w ++ [{| call := c; failed := errorOf r |}] |}).

(** The diagnostics a handler returns, and the world it leaves. *)
Definition run {St} (handler : M St Diagnostics) (w : World St) : Diagnostics * World St :=
  match handler w with
  | (Continue diags, w') => (diags, w')
  | (Return diags, w') => (diags, w')
  end.

(** The requests a handler made: what it appended to the log. *)
Definition newEvents {St} (w w' : World St) : list Event :=
  drop (length (w_log w)) (w_log w').

Section Handlers.
Context `{!External} {St : Type} `{!Client St}.

Definition CreateGuild (name : string) (params : CreateGuild.t) : M St (result Guild.t) :=
  request (ApiCreateGuild name params) (client_CreateGuild name params).
Definition GetChannels (guild : Snowflake) : M St (result (list Channel.t)) :=
  request (ApiGetChannels guild) (client_GetChannels guild).
Definition DeleteChannel (channel : Snowflake) : M St (result Channel.t) :=
  request (ApiDeleteChannel channel) (client_DeleteChannel channel).
Definition Update (guild : Snowflake) (params : UpdateGuild.t) : M St (result Guild.t) :=
  request (ApiUpdate guild params) (client_Update guild params).
Definition Execute (guild : Snowflake) (builder : UpdateBuilder.t) : M St (result Guild.t) :=
  request (ApiExecute guild builder) (client_Execute guild builder).
Definition GetGuild (guild : Snowflake) : M St (result Guild.t) :=
  request (ApiGetGuild guild) (client_Get guild).
Definition DeleteGuild (guild : Snowflake) : M St (result unit) :=
  request (ApiDeleteGuild guild) (client_Delete guild).

(** *** [resourceServerCreate] *)

Definition create_icon (d : ResourceData) : string :=
  let icon := "" in
  let icon := let '(v, ok) := GetOk d "icon_url" in
              if ok then FromRemote (toString v) else icon in
  let icon := let '(v, ok) := GetOk d "icon_data_uri" in
              if ok then toString v else icon in
  icon.

Definition create_params (d : ResourceData) : CreateGuild.t :=
  {| CreateGuild.Region := toString (Get d "region");
     CreateGuild.Icon := create_icon d;
     CreateGuild.VerificationLvl := toInt (Get d "verification_level");
     CreateGuild.DefaultMsgNotifications := to_uint (toInt (Get d "default_message_notifications"));
     CreateGuild.ExplicitContentFilter := to_uint (toInt (Get d "explicit_content_filter"));
     CreateGuild.Channels := [] |}.

Definition create_splash (d : ResourceData) : string :=
  let splash := "" in
  let splash := let '(v, ok) := GetOk d "splash_url" in
                if ok then FromRemote (toString v) else splash in
  let splash := let '(v, ok) := GetOk d "splash_data_uri" in
                if ok then toString v else splash in
  splash.

(** The lines from [splash := ""] to [if edit]: the splash, the AFK
    channel, the AFK timeout, and whether an edit is needed. *)
Definition create_edit (d : ResourceData) (server : Guild.t) : string * Snowflake * Z * bool :=
  let splash := create_splash d in
  let edit := false in
  let edit := if bool_decide (splash ≠ "") then true else edit in
  let afkChannel := Guild.AfkChannelID server in
  let '(afkChannel, edit) :=
    let '(v, ok) := GetOk d "afk_channel_id" in
    if ok then (ParseSnowflakeString (toString v), true) else (afkChannel, edit) in
  let afkTimeOut := Guild.AfkTimeout server in
  let '(afkTimeOut, edit) :=
    let '(v, ok) := GetOk d "afk_timeout" in
    if ok then (to_uint (toInt v), true) else (afkTimeOut, edit) in
  (splash, afkChannel, afkTimeOut, edit).

(** [if edit { ... }]: the update of splash and AFK channel, then the
    builder that sets the AFK timeout. *)
Definition create_edit_requests (d : ResourceData) (server : Guild.t) : M St unit :=
  let '(splash, afkChannel, afkTimeOut, edit) := create_edit d server in
  when edit (
    _ ← Update (Guild.ID server)
          {| UpdateGuild.Splash := Some splash;
             UpdateGuild.AFKChannelID := Some afkChannel;
             UpdateGuild.OwnerID := None |}
          ≫= orReturn "Failed to edit server: ";
    _ ← Execute (Guild.ID server)
          (UpdateBuilder.SetAfkTimeout (to_int afkTimeOut) UpdateBuilder.new)
          ≫= orReturn "Failed to edit server: ";
    mret ()).

(** [if v, ok := d.GetOk("owner_id"); ok { ... }]: the owner is updated
    when the one given is not the owner of the new guild. *)
Definition create_owner_request (d : ResourceData) (server : Guild.t) : M St unit :=
  let '(v, ok) := GetOk d "owner_id" in
  when ok (
    let newOwnerId := ParseSnowflakeString (toString v) in
    when (bool_decide (Guild.OwnerID server ≠ newOwnerId)) (
      _ ← Update (Guild.ID server)
            {| UpdateGuild.Splash := None;
               UpdateGuild.AFKChannelID := None;
               UpdateGuild.OwnerID := Some newOwnerId |}
            ≫= orReturn "Failed to edit server: ";
      mret ())).

(** The last lines: the ID and the computed attributes. *)
Definition create_state (server : Guild.t) : M St unit :=
  d_SetId (Snowflake_String (Guild.ID server));;
  d ← getData;
  when (negb (GetOk d "owner_id").2)
    (d_Set "owner" (VString (Snowflake_String (Guild.OwnerID server))));;
  d_Set "icon_hash" (VString (Guild.Icon server));;
  d_Set "splash_hash" (VString (Guild.Splash server)).

Definition resourceServerCreate : M St Diagnostics :=
  let diags : Diagnostics := [] in
  d ← getData;
  let name := toString (Get d "name") in
  server ← CreateGuild name (create_params d) ≫= orReturn "Failed to create server: ";
  channels ← GetChannels (Guild.ID server)
               ≫= orReturn "Failed to fetch channels for new server: ";
  forRange channels (λ channel,
    _ ← DeleteChannel (Channel.ID channel)
          ≫= orReturn "Failed to delete channel for new server: ";
    mret ());;
  create_edit_requests d server;;
  create_owner_request d server;;
  create_state server;;
  mret diags.

(** *** [resourceServerManagedCreate] *)

Definition resourceServerManagedCreate : M St Diagnostics :=
  let diags : Diagnostics := [] in
  d ← getData;
  let '(serverIdInterface, ok) := GetOk d "server_id" in
  if negb ok then
    returnDiags (diag_Errorf "Error: server_id must be set" "")
  else
    match serverIdInterface with
    | VString serverId =>
        d_SetId serverId;;
        mret diags
    | _ => returnDiags (diag_Errorf "Error: server_id must be a string" "")
    end.

(** *** [resourceServerRead] *)

Definition resourceServerRead : M St Diagnostics :=
  let diags : Diagnostics := [] in
  d ← getData;
  server ← GetGuild (getId (Id d)) ≫= orReturn "Error fetching server: ";
  d_Set "name" (VString (Guild.Name server));;
  d_Set "region" (VString (Guild.Region server));;
  d_Set "default_message_notifications" (VInt (to_int (Guild.DefaultMessageNotifications server)));;
  d_Set "afk_timeout" (VInt (to_int (Guild.AfkTimeout server)));;
  d_Set "icon_hash" (VString (Guild.Icon server));;
  d_Set "splash_hash" (VString (Guild.Splash server));;
  d_Set "verification_level" (VInt (to_int (Guild.VerificationLevel server)));;
  d_Set "default_message_notifications" (VInt (to_int (Guild.DefaultMessageNotifications server)));;
  d_Set "explicit_content_filter" (VInt (to_int (Guild.ExplicitContentFilter server)));;
  when (negb (IsZero (Guild.AfkChannelID server)))
    (d_Set "afk_channel_id" (VString (Snowflake_String (Guild.AfkChannelID server))));;
  d ← getData;
  when (bool_decide (toString (Get d "owner_id") ≠ "") && negb (IsZero (Guild.OwnerID server)))
    (d_Set "owner_id" (VString (Snowflake_String (Guild.OwnerID server))));;
  mret diags.

(** *** [resourceServerUpdate] *)

(** [if cond { builder.SetX(v); edit = true }], on the pair of the
    builder and the [edit] flag. *)
Definition ifThenSet (cond : bool) (set : UpdateBuilder.t → UpdateBuilder.t)
    (s : UpdateBuilder.t * bool) : UpdateBuilder.t * bool :=
  if cond then (set s.1, true) else s.

(** The flat sequence of [if d.HasChange(...)] blocks and the block on
    the owner that ends it: the builder and the [edit] flag they leave. *)
Definition update_builder (d : ResourceData) (server : Guild.t) : UpdateBuilder.t * bool :=
  let s := (UpdateBuilder.new, false) in
  let s := ifThenSet (HasChange d "icon_url")
             (UpdateBuilder.SetIcon (FromRemote (toString (Get d "icon_url")))) s in
  let s := ifThenSet (HasChange d "icon_data_uri")
             (UpdateBuilder.SetIcon (toString (Get d "icon_data_uri"))) s in
  let s := ifThenSet (HasChange d "splash_url")
             (UpdateBuilder.SetIcon (FromRemote (toString (Get d "splash_url")))) s in
  let s := ifThenSet (HasChange d "splash_data_uri")
             (UpdateBuilder.SetIcon (toString (Get d "splash_data_uri"))) s in
  let s := ifThenSet (HasChange d "afk_channel_id")
             (UpdateBuilder.SetAfkChannelID
                (ParseSnowflakeString (toString (Get d "afk_channel_id")))) s in
  let s := ifThenSet (HasChange d "afk_timeout")
             (UpdateBuilder.SetAfkTimeout (toInt (Get d "afk_timeout"))) s in
  let s := ifThenSet (HasChange d "owner_id")
             (UpdateBuilder.SetOwnerID
                (ParseSnowflakeString (toString (Get d "owner_id")))) s in
  let s := ifThenSet (HasChange d "verification_level")
             (UpdateBuilder.SetVerificationLevel (toInt (Get d "verification_level"))) s in
  let s := ifThenSet (HasChange d "default_message_notifications")
             (UpdateBuilder.SetDefaultMessageNotifications
                (to_uint (toInt (Get d "default_message_notifications")))) s in
  let s := ifThenSet (HasChange d "explicit_content_filter")
             (UpdateBuilder.SetExplicitContentFilter
                (to_uint (toInt (Get d "explicit_content_filter")))) s in
  let s := ifThenSet (HasChange d "name")
             (UpdateBuilder.SetName (toString (Get d "name"))) s in
  let s := ifThenSet (HasChange d "region")
             (UpdateBuilder.SetRegion (toString (Get d "region"))) s in
  let '(ownerId, hasOwner) := GetOk d "owner_id" in
  if HasChange d "owner_id" then
    ifThenSet hasOwner (UpdateBuilder.SetOwnerID (getId (toString ownerId))) s
  else
    ifThenSet hasOwner (UpdateBuilder.SetOwnerID (Guild.OwnerID server)) s.

Definition resourceServerUpdate : M St Diagnostics :=
  let diags : Diagnostics := [] in
  d ← getData;
  server ← GetGuild (getId (Id d)) ≫= orReturn "Error fetching server: ";
  let '(builder, edit) := update_builder d server in
  when edit (
    _ ← Execute (Guild.ID server) builder ≫= orReturn "Failed to edit server: ";
    mret ());;
  mret diags.

(** *** [resourceServerDelete] and [resourceServerManagedDelete] *)

Definition resourceServerDelete : M St Diagnostics :=
  let diags : Diagnostics := [] in
  d ← getData;
  _ ← DeleteGuild (getId (Id d)) ≫= orReturn "Failed to delete server: ";
  mret diags.

Definition resourceServerManagedDelete : M St Diagnostics :=
  let diags : Diagnostics := [] in
  (* noop *)
  mret diags.

End Handlers.

(** The handlers of the two resources, as [resourceDiscordServer] and
    [resourceDiscordManagedServer] register them. *)
Inductive Operation := CreateContext | ReadContext | UpdateContext | DeleteContext.

Definition handler `{!External} {St} `{!Client St}
    (kind : ResourceKind) (op : Operation) : M St Diagnostics :=
  match kind, op with
  | DiscordServer, CreateContext => resourceServerCreate
  | DiscordServer, ReadContext => resourceServerRead
  | DiscordServer, UpdateContext => resourceServerUpdate
  | DiscordServer, DeleteContext => resourceServerDelete
  | DiscordManagedServer, CreateContext => resourceServerManagedCreate
  | DiscordManagedServer, ReadContext => resourceServerRead
  | DiscordManagedServer, UpdateContext => resourceServerUpdate
  | DiscordManagedServer, DeleteContext => resourceServerManagedDelete
  end.

(** ** An in-memory Discord

    A concrete client to run the handlers against: guilds are kept in a
    finite map, channels in a list, snowflakes are written in decimal.
    A new guild is owned by the bot, has the AFK timeout 300 and comes with
    two default channels. *)
Module Mock.

Definition digit (c : ascii) : option N :=
  let n := N_of_ascii c in
  if ((48 <=? n) && (n <=? 57))%N then Some (n - 48)%N else None.

Fixpoint digits (s : string) (acc : N) : option N :=
  match s with
  | EmptyString => Some acc
  | String c rest => d ← digit c; digits rest (acc * 10 + d)%N
  end.

(** [strconv.ParseUint(s, 10, 64)] *)
Definition ParseUint (s : string) : option N :=
  match s with
  | EmptyString => None
  | _ => n ← digits s 0%N; if (n <? 2 ^ 64)%N then Some n else None
  end.

Global Instance external : External := {|
  ParseSnowflakeString s := default 0%N (ParseUint s);
  Snowflake_String s := pretty s;
  FromRemote url := "data:image/png;base64," +:+ url;
  getId s := default 0%N (ParseUint s);
|}.

Record Discord := {
  guilds : gmap Snowflake Guild.t;
  channels : list (Snowflake * Snowflake);
  next : Snowflake;
  me : Snowflake;
}.

Definition init : Discord :=
  {| guilds := ∅; channels := []; next := 1000%N; me := 1%N |}.

Definition newGuild (st : Discord) (name : string) (p : CreateGuild.t) : Guild.t :=
  {| Guild.ID := next st;
     Guild.Name := name;
     Guild.Region := CreateGuild.Region p;
     Guild.OwnerID := me st;
     Guild.AfkChannelID := 0%N;
     Guild.AfkTimeout := 300;
     Guild.Icon := CreateGuild.Icon p;
     Guild.Splash := "";
     Guild.VerificationLevel := to_uint (CreateGuild.VerificationLvl p);
     Guild.DefaultMessageNotifications := CreateGuild.DefaultMsgNotifications p;
     Guild.ExplicitContentFilter := CreateGuild.ExplicitContentFilter p |}.

Definition putGuild (g : Guild.t) (st : Discord) : Discord :=
  {| guilds := <[Guild.ID g := g]> (guilds st); channels := channels st;
     next := next st; me := me st |}.

Definition createGuild (name : string) (p : CreateGuild.t) (st : Discord)
    : result Guild.t * Discord :=
  let g := newGuild st name p in
  (Success g,
   {| guilds := <[Guild.ID g := g]> (guilds st);
      channels := channels st ++ [((next st + 1)%N, next st); ((next st + 2)%N, next st)];
      next := (next st + 3)%N; me := me st |}).

Definition getChannels (guild : Snowflake) (st : Discord)
    : result (list Channel.t) * Discord :=
  match guilds st !! guild with
  | None => (Failure "Unknown Guild", st)
  | Some _ =>
      (Success ((λ c, {| Channel.ID := c.1 |})
                  <$> filter (λ c, c.2 = guild) (channels st)), st)
  end.

Definition deleteChannel (channel : Snowflake) (st : Discord)
    : result Channel.t * Discord :=
  if bool_decide (channel ∈ (channels st).*1) then
    (Success {| Channel.ID := channel |},
     {| guilds := guilds st;
        channels := filter (λ c, c.1 ≠ channel) (channels st);
        next := next st; me := me st |})
  else (Failure "Unknown Channel", st).

Definition patch (p : UpdateGuild.t) (g : Guild.t) : Guild.t :=
  {| Guild.ID := Guild.ID g;
     Guild.Name := Guild.Name g;
     Guild.Region := Guild.Region g;
     Guild.OwnerID := default (Guild.OwnerID g) (UpdateGuild.OwnerID p);
     Guild.AfkChannelID := default (Guild.AfkChannelID g) (UpdateGuild.AFKChannelID p);
     Guild.AfkTimeout := Guild.AfkTimeout g;
     Guild.Icon := Guild.Icon g;
     Guild.Splash := default (Guild.Splash g) (UpdateGuild.Splash p);
     Guild.VerificationLevel := Guild.VerificationLevel g;
     Guild.DefaultMessageNotifications := Guild.DefaultMessageNotifications g;
     Guild.ExplicitContentFilter := Guild.ExplicitContentFilter g |}.

Definition patchBuilder (b : UpdateBuilder.t) (g : Guild.t) : Guild.t :=
  {| Guild.ID := Guild.ID g;
     Guild.Name := default (Guild.Name g) (UpdateBuilder.name b);
     Guild.Region := default (Guild.Region g) (UpdateBuilder.region b);
     Guild.OwnerID := default (Guild.OwnerID g) (UpdateBuilder.owner_id b);
     Guild.AfkChannelID := default (Guild.AfkChannelID g) (UpdateBuilder.afk_channel_id b);
     Guild.AfkTimeout := default (Guild.AfkTimeout g) (to_uint <$> UpdateBuilder.afk_timeout b);
     Guild.Icon := default (Guild.Icon g) (UpdateBuilder.icon b);
     Guild.Splash := default (Guild.Splash g) (UpdateBuilder.splash b);
     Guild.VerificationLevel :=
       default (Guild.VerificationLevel g) (to_uint <$> UpdateBuilder.verification_level b);
     Guild.DefaultMessageNotifications :=
       default (Guild.DefaultMessageNotifications g)
               (UpdateBuilder.default_message_notifications b);
     Guild.ExplicitContentFilter :=
       default (Guild.ExplicitContentFilter g) (UpdateBuilder.explicit_content_filter b) |}.

Definition modify (f : Guild.t → Guild.t) (guild : Snowflake) (st : Discord)
    : result Guild.t * Discord :=
  match guilds st !! guild with
  | None => (Failure "Unknown Guild", st)
  | Some g => (Success (f g), putGuild (f g) st)
  end.

Definition getGuild (guild : Snowflake) (st : Discord) : result Guild.t * Discord :=
  match guilds st !! guild with
  | None => (Failure "Unknown Guild", st)
  | Some g => (Success g, st)
  end.

Definition deleteGuild (guild : Snowflake) (st : Discord) : result unit * Discord :=
  match guilds st !! guild with
  | None => (Failure "Unknown Guild", st)
  | Some g =>
      (Success (),
       {| guilds := delete guild (guilds st);
          channels := filter (λ c, c.2 ≠ guild) (channels st);
          next := next st; me := me st |})
  end.

Global Instance client : Client Discord := {|
  client_CreateGuild := createGuild;
  client_GetChannels := getChannels;
  client_DeleteChannel := deleteChannel;
  client_Update guild p := modify (patch p) guild;
  client_Execute guild b := modify (patchBuilder b) guild;
  client_Get := getGuild;
  client_Delete := deleteGuild;
|}.

(** The resource data of a new [discord_server] resource with the given
    configuration, and the world a handler starts in. *)
Definition planned (config : gmap string Value) : ResourceData :=
  {| rd_kind := DiscordServer; rd_id := ""; rd_state := ∅; rd_new := config |}.

Definition start (d : ResourceData) (st : Discord) : World Discord :=
  {| w_d := d; w_api := st; w_log := [] |}.

(** A guild that an earlier apply created, and the attributes that apply
    left in the state. *)
Definition guild1000 (owner : Snowflake) : Guild.t :=
  {| Guild.ID := 1000%N; Guild.Name := "srv"; Guild.Region := "";
     Guild.OwnerID := owner; Guild.AfkChannelID := 0%N; Guild.AfkTimeout := 300;
     Guild.Icon := ""; Guild.Splash := ""; Guild.VerificationLevel := 0;
     Guild.DefaultMessageNotifications := 0; Guild.ExplicitContentFilter := 0 |}.

Definition existing (owner : Snowflake) : Discord :=
  {| guilds := {[1000%N := guild1000 owner]}; channels := [];
     next := 1003%N; me := 1%N |}.

Definition applied : gmap string Value :=
  list_to_map [
    ("name", VString "srv"); ("region", VString "");
    ("verification_level", VInt 0); ("explicit_content_filter", VInt 0);
    ("default_message_notifications", VInt 0); ("afk_timeout", VInt 300)
  ].

(** The resource data of an update with the prior state [state] and the
    planned attributes [new]. *)
Definition resource (state new : gmap string Value) : ResourceData :=
  {| rd_kind := DiscordServer; rd_id := "1000"; rd_state := state; rd_new := new |}.

(** The same for a [discord_managed_server] resource. *)
Definition managed (state new : gmap string Value) : ResourceData :=
  {| rd_kind := DiscordManagedServer; rd_id := "1000";
     rd_state := state; rd_new := new |}.

(** The in-memory Discord that holds the one guild [g], with ID 1000, and
    the channels [chans]. *)
Definition with_guild (g : Guild.t) (chans : list (Snowflake * Snowflake)) : Discord :=
  {| guilds := {[1000%N := g]}; channels := chans; next := 1003%N; me := 1%N |}.

End Mock.

(** ** The fields of the schema, by type *)

Definition stringKeys : list string :=
  ["region"; "afk_channel_id"; "icon_url"; "icon_data_uri"; "icon_hash";
   "splash_url"; "splash_data_uri"; "splash_hash"; "owner_id"; "server_id"; "name"].

Definition intKeys : list string :=
  ["verification_level"; "explicit_content_filter";
   "default_message_notifications"; "afk_timeout"].

(** ** The requests of [resourceServerCreate] after the channels are deleted *)

Section CreatePatches.
Context `{!External}.

(** The requests of the [if edit] block: the update of splash and AFK
    channel followed by the builder with the AFK timeout. *)
Definition create_edit_calls (d : ResourceData) (server : Guild.t) : list ApiCall :=
  let '(splash, afkChannel, afkTimeOut, edit) := create_edit d server in
  if edit then
    [ApiUpdate (Guild.ID server)
       {| UpdateGuild.Splash := Some splash;
          UpdateGuild.AFKChannelID := Some afkChannel;
          UpdateGuild.OwnerID := None |};
     ApiExecute (Guild.ID server)
       (UpdateBuilder.SetAfkTimeout (to_int afkTimeOut) UpdateBuilder.new)]
  else [].

(** The request of the owner block: the transfer to a differing owner. *)
Definition create_owner_calls (d : ResourceData) (server : Guild.t) : list ApiCall :=
  let '(v, ok) := GetOk d "owner_id" in
  if ok && bool_decide (Guild.OwnerID server ≠ ParseSnowflakeString (toString v))
  then [ApiUpdate (Guild.ID server)
          {| UpdateGuild.Splash := None;
             UpdateGuild.AFKChannelID := None;
             UpdateGuild.OwnerID := Some (ParseSnowflakeString (toString v)) |}]
  else [].

(** The requests for the extra fields, in the order of the source. *)
Definition create_patches (d : ResourceData) (server : Guild.t) : list ApiCall :=
  create_edit_calls d server ++ create_owner_calls d server.

(** An extra field is configured: a splash, an AFK channel, an AFK
    timeout, or an owner other than the owner of the new guild. *)
Definition extras_configured (d : ResourceData) (server : Guild.t) : Prop :=
  create_splash d ≠ "" ∨
  (GetOk d "afk_channel_id").2 = true ∨
  (GetOk d "afk_timeout").2 = true ∨
  ((GetOk d "owner_id").2 = true ∧
   Guild.OwnerID server ≠ ParseSnowflakeString (toString (GetOk d "owner_id").1)).

End CreatePatches.

(** The attributes [resourceServerUpdate] asks [d.HasChange] about. *)
Definition trackedKeys : list string :=
  ["icon_url"; "icon_data_uri"; "splash_url"; "splash_data_uri"; "afk_channel_id";
   "afk_timeout"; "owner_id"; "verification_level"; "default_message_notifications";
   "explicit_content_filter"; "name"; "region"].

(** ** Predicates on runs *)

Definition succeeded (e : Event) : Prop := failed e = None.

(** How a handler may end with respect to the requests [l] it made: it
    goes on or returns after requests that all succeeded, or it returns
    the single diagnostic [format ++ err] right after a request that
    failed with [err]. *)
Inductive failStopOutcome {A : Type} : Outcome A → list Event → Prop :=
| fs_continue a l :
    Forall succeeded l → failStopOutcome (Continue a) l
| fs_return diags l :
    Forall succeeded l → failStopOutcome (Return diags) l
| fs_failed l c err format :
    Forall succeeded l →
    failStopOutcome (Return (diag_Errorf format err))
                    (l ++ [{| call := c; failed := Some err |}]).

Definition failStop {St A} (m : M St A) : Prop :=
  ∀ w, ∃ l, w_log (m w).2 = w_log w ++ l ∧ failStopOutcome (m w).1 l.

(** A block that sends the requests [expected] in this order, stops at a
    first error with diagnostics, and leaves the resource data alone. *)
Definition sends {St A} (m : M St A) (expected : list ApiCall) : Prop :=
  ∀ w, ∃ (events : list Event) (api : St),
    let w' := {| w_d := w_d w; w_api := api; w_log := w_log w ++ events |} in
    (∃ a, m w = (Continue a, w') ∧ call <$> events = expected) ∨
    (∃ diags, m w = (Return diags, w') ∧ diags ≠ []
              ∧ (call <$> events) `prefix_of` expected).

(** The attributes of an update have changed, or its owner_id is set. *)
Definition changed_or_owner (d : ResourceData) : Prop :=
  (∃ key, key ∈ trackedKeys ∧ HasChange d key = true) ∨ (GetOk d "owner_id").2 = true.

(** Diff-driven in the strict sense: the run of [resourceServerUpdate]
    from [w] executes a builder if and only if some attribute of the
    resource has changed. *)
Definition update_iff_changed `{!External} {St} `{!Client St} (w : World St) : Prop :=
  (∃ guild builder,
     ApiExecute guild builder ∈ call <$> newEvents w (run resourceServerUpdate w).2)
  ↔ (∃ key, HasChange (w_d w) key = true).

(** The validators of the schema accept the values of the resource data;
    the fields that have a validator are the integer fields. *)
Definition validated (d : ResourceData) : Prop :=
  Forall (λ key,
            match schemaOf (rd_kind d) !! key ≫= ValidateFunc with
            | Some validate => (validate (toInt (Get d key)) key).2 = []
            | None => True
            end) intKeys.

(** A snowflake attribute is unset or written the way the client library
    writes snowflakes. *)
Definition canonical `{!External} (s : string) : Prop :=
  s = "" ∨ Snowflake_String (ParseSnowflakeString s) = s.

(** The attributes a configuration can give. *)
Definition configurable : list string :=
  ["name"; "region"; "verification_level"; "explicit_content_filter";
   "default_message_notifications"; "afk_channel_id"; "afk_timeout";
   "icon_url"; "icon_data_uri"; "splash_url"; "splash_data_uri"; "owner_id"].

(** The attributes [resourceServerRead] writes. *)
Definition readKeys : list string :=
  ["name"; "region"; "default_message_notifications"; "afk_timeout"; "icon_hash";
   "splash_hash"; "verification_level"; "explicit_content_filter";
   "afk_channel_id"; "owner_id"].

(** Every request a block sends satisfies [P]. *)
Definition onlyCalls {St A} (P : ApiCall → Prop) (m : M St A) : Prop :=
  ∀ w, ∃ l, w_log (m w).2 = w_log w ++ l ∧ Forall (λ e, P (call e)) l.

(** The fetch of a guild and the execution of an update builder. *)
Definition isFetchOrExecute (c : ApiCall) : Prop :=
  match c with
  | ApiGetGuild _ | ApiExecute _ _ => True
  | _ => False
  end.

(** The text a handler puts before the error of a failed request. *)
Definition diagnosticPrefix (c : ApiCall) : string :=
  match c with
  | ApiCreateGuild _ _ => "Failed to create server: "
  | ApiGetChannels _ => "Failed to fetch channels for new server: "
  | ApiDeleteChannel _ => "Failed to delete channel for new server: "
  | ApiUpdate _ _ | ApiExecute _ _ => "Failed to edit server: "
  | ApiGetGuild _ => "Error fetching server: "
  | ApiDeleteGuild _ => "Failed to delete server: "
  end.

(** A block whose requests all succeed, or which stops at a failed request
    and returns the diagnostic that [diagnosticPrefix] gives for it. *)
Definition reports {St A} (m : M St A) : Prop :=
  ∀ w, ∃ l, w_log (m w).2 = w_log w ++ l ∧
    (Forall succeeded l ∨
     ∃ l0 c err,
       l = l0 ++ [{| call := c; failed := Some err |}] ∧ Forall succeeded l0 ∧
       (m w).1 = Return (diag_Errorf (diagnosticPrefix c) err)).

(** * Properties *)

(** ** The validators *)

Lemma contains_elem_of (array : list Z) (value : Z) :
  contains array value = true ↔ value ∈ array.
Proof.
  induction array as [|a rest IH]; simpl.
  - split; [discriminate | intros H; inversion H].
  - destruct (Z.eqb_spec a value) as [->|Hne].
    + split; [intros _; left | reflexivity].
    + rewrite IH. split; [intros H; by right | intros H].
      inversion H; subst; [congruence | assumption].
Qed.

Example validate_afk_timeout_120 :
  validate_afk_timeout 120 "afk_timeout" =
  ([], ["afk_timeout must be set to one of the following values: [60 300 900 1800 3600], but got: 120"]).
Proof. reflexivity. Qed.

Example validate_verification_level_neg :
  validate_verification_level (-1) "verification_level" =
  ([], ["verification_level must be between 0 and 4 inclusive, got: -1"]).
Proof. reflexivity. Qed.

(** C3: the afk_timeout validator returns no error exactly for the values
    60, 300, 900, 1800 and 3600, and one error for every other value; it
    returns an error for 120 and none for 300. *)
Theorem validate_afk_timeout_accepts (v : Z) (key : string) :
  ((validate_afk_timeout v key).2 = []
     ↔ v = 60 ∨ v = 300 ∨ v = 900 ∨ v = 1800 ∨ v = 3600) ∧
  ((∃ err, (validate_afk_timeout v key).2 = [err])
     ↔ ¬ (v = 60 ∨ v = 300 ∨ v = 900 ∨ v = 1800 ∨ v = 3600)) ∧
  (validate_afk_timeout 120 key).2 ≠ [] ∧
  (validate_afk_timeout 300 key).2 = [].
Proof.
  assert (Hmem : contains afk_timeout_expected v = true
                 ↔ v = 60 ∨ v = 300 ∨ v = 900 ∨ v = 1800 ∨ v = 3600).
  { rewrite contains_elem_of. unfold afk_timeout_expected.
    rewrite !elem_of_cons, elem_of_nil. intuition congruence. }
  split_and!; [| | by vm_compute | by vm_compute];
    unfold validate_afk_timeout; cbv zeta;
    destruct (contains afk_timeout_expected v) eqn:Hc; cbn [negb snd app].
  - split; [intros _; by apply Hmem | reflexivity].
  - split; [discriminate | intros H; apply Hmem in H; discriminate].
  - split; [intros [err Herr]; discriminate | intros Hn; destruct Hn; by apply Hmem].
  - split; [intros _ H; apply Hmem in H; discriminate | intros _; eauto].
Qed.

(** C4: the verification_level validator returns an error exactly when
    the value is outside 0..4, and neither warnings nor errors for every
    value inside. *)
Theorem validate_verification_level_range (v : Z) (key : string) :
  ((∃ err, (validate_verification_level v key).2 = [err]) ↔ ¬ (0 ≤ v ≤ 4)) ∧
  (validate_verification_level v key = ([], []) ↔ 0 ≤ v ≤ 4).
Proof.
  unfold validate_verification_level; cbv zeta.
  destruct (Z.gtb_spec v 4) as [Hgt|Hle], (Z.ltb_spec v 0) as [Hlt|Hge];
    cbn [orb snd app]; (split; split; intros H);
    first [ lia | discriminate | reflexivity | by eauto
          | by destruct H | exfalso; apply H; lia ].
Qed.

(** ** Requests are logged, and an error ends the handler *)

Lemma newEvents_app {St} (w w' : World St) (l : list Event) :
  w_log w' = w_log w ++ l → newEvents w w' = l.
Proof. intros Hlog. unfold newEvents. rewrite Hlog. apply drop_app_length. Qed.

Section FailStop.
Context {St : Type}.

Lemma failStop_ret {A} (a : A) : failStop (mret a : M St A).
Proof. intros w. exists []. rewrite app_nil_r. split; [done | by constructor]. Qed.

Lemma failStop_returnDiags {A} (diags : Diagnostics) :
  failStop (returnDiags diags : M St A).
Proof. intros w. exists []. rewrite app_nil_r. split; [done | by constructor]. Qed.

Lemma failStop_getData : failStop (getData : M St ResourceData).
Proof. intros w. exists []. rewrite app_nil_r. split; [done | by constructor]. Qed.

Lemma failStop_d_SetId (v : string) : failStop (d_SetId v : M St unit).
Proof. intros w. exists []. simpl. rewrite app_nil_r. split; [done | by constructor]. Qed.

Lemma failStop_d_Set (key : string) (value : Value) :
  failStop (d_Set key value : M St unit).
Proof. intros w. exists []. simpl. rewrite app_nil_r. split; [done | by constructor]. Qed.

Lemma failStop_bind {A B} (m : M St A) (f : A → M St B) :
  failStop m → (∀ a, failStop (f a)) → failStop (m ≫= f).
Proof.
  intros Hm Hf w. destruct (Hm w) as (l1 & Hlog1 & Hout1).
  unfold mbind, M_bind. destruct (m w) as [[a|diags] w1] eqn:Hmw; simpl in *.
  - destruct (Hf a w1) as (l2 & Hlog2 & Hout2).
    exists (l1 ++ l2). rewrite Hlog2, Hlog1, app_assoc. split; [done|].
    inversion Hout1 as [? ? Hl1| |]; subst.
    inversion Hout2 as [? ? Hl2|? ? Hl2|l0 ? ? ? Hl0].
    + constructor. by apply Forall_app.
    + constructor. by apply Forall_app.
    + rewrite app_assoc. apply fs_failed. by apply Forall_app.
  - exists l1. split; [done|].
    inversion Hout1; subst; [by apply fs_return | by apply fs_failed].
Qed.

(** A request whose error is checked at once. *)
Lemma failStop_request {A} (c : ApiCall) (method : St → result A * St) (format : string) :
  failStop (request c method ≫= orReturn format).
Proof.
  intros w. unfold mbind, M_bind, request.
  destruct (method (w_api w)) as [[a|err] api]; simpl.
  - eexists. split; [done|]. constructor. by repeat constructor.
  - eexists. split; [done|]. apply (fs_failed []). constructor.
Qed.

Lemma failStop_when (cond : bool) (body : M St unit) :
  failStop body → failStop (when cond body).
Proof. intros H. destruct cond; [done | apply failStop_ret]. Qed.

Lemma failStop_forRange {A} (l : list A) (body : A → M St unit) :
  (∀ x, failStop (body x)) → failStop (forRange l body).
Proof.
  intros Hbody. induction l as [|x rest IH]; simpl.
  - apply failStop_ret.
  - apply failStop_bind; [apply Hbody | intros _; apply IH].
Qed.

End FailStop.

Ltac fail_stop :=
  unfold CreateGuild, GetChannels, DeleteChannel, Update, Execute, GetGuild, DeleteGuild;
  repeat match goal with
    | |- failStop (let '(_, _) := ?p in _) => destruct p
    | |- failStop (mret _) => apply failStop_ret
    | |- failStop (returnDiags _) => apply failStop_returnDiags
    | |- failStop getData => apply failStop_getData
    | |- failStop (d_SetId _) => apply failStop_d_SetId
    | |- failStop (d_Set _ _) => apply failStop_d_Set
    | |- failStop (when _ _) => apply failStop_when
    | |- failStop (forRange _ _) => apply failStop_forRange; intros ?
    | |- failStop (request _ _ ≫= orReturn _) => apply failStop_request
    | |- failStop (_ ≫= _) => apply failStop_bind; [|intros ?]
    end.

Section HandlersFailStop.
Context `{!External} {St : Type} `{!Client St}.

Lemma resourceServerCreate_failStop : failStop (resourceServerCreate (St := St)).
Proof.
  unfold resourceServerCreate, create_edit_requests, create_owner_request, create_state.
  fail_stop.
Qed.

Lemma resourceServerManagedCreate_failStop :
  failStop (resourceServerManagedCreate (St := St)).
Proof.
  unfold resourceServerManagedCreate.
  apply failStop_bind; [apply failStop_getData | intros d].
  destruct (GetOk d "server_id") as [[|serverId|n] [|]]; cbn [negb];
    try apply failStop_returnDiags.
  apply failStop_bind; [apply failStop_d_SetId | intros _; apply failStop_ret].
Qed.

Lemma resourceServerRead_failStop : failStop (resourceServerRead (St := St)).
Proof. unfold resourceServerRead. fail_stop. Qed.

Lemma resourceServerUpdate_failStop : failStop (resourceServerUpdate (St := St)).
Proof.
  unfold resourceServerUpdate.
  apply failStop_bind; [apply failStop_getData | intros d].
  apply failStop_bind; [apply failStop_request | intros server].
  destruct (update_builder d server) as [builder edit].
  apply failStop_bind; [|intros _; apply failStop_ret].
  apply failStop_when.
  apply failStop_bind; [apply failStop_request | intros _; apply failStop_ret].
Qed.

Lemma resourceServerDelete_failStop : failStop (resourceServerDelete (St := St)).
Proof. unfold resourceServerDelete. fail_stop. Qed.

Lemma resourceServerManagedDelete_failStop :
  failStop (resourceServerManagedDelete (St := St)).
Proof. unfold resourceServerManagedDelete. fail_stop. Qed.

Lemma handler_failStop (kind : ResourceKind) (op : Operation) :
  failStop (handler (St := St) kind op).
Proof.
  destruct kind, op; simpl;
    auto using resourceServerCreate_failStop, resourceServerManagedCreate_failStop,
      resourceServerRead_failStop, resourceServerUpdate_failStop,
      resourceServerDelete_failStop, resourceServerManagedDelete_failStop.
Qed.

End HandlersFailStop.

(** C7: in every handler of the two resources, a request that returns an
    error is the last request of the run: every other request of the run
    succeeded, so the failed one was not retried and nothing was sent after
    it; and the handler returns exactly one diagnostic, of error severity,
    whose summary ends with the text of that error. *)
Theorem api_error_single_diagnostic `{!External} {St : Type} `{!Client St}
    (kind : ResourceKind) (op : Operation) (w : World St)
    (i : nat) (c : ApiCall) (err : error) :
  newEvents w (run (handler kind op) w).2 !! i = Some {| call := c; failed := Some err |} →
  (∃ format, (run (handler kind op) w).1
             = [{| severity := Error; Summary := format +:+ err |}]) ∧
  length (newEvents w (run (handler kind op) w).2) = S i ∧
  (∀ j e, newEvents w (run (handler kind op) w).2 !! j = Some e → j ≠ i → failed e = None).
Proof.
  destruct (handler_failStop kind op w) as (l & Hlog & Hout).
  unfold run. destruct (handler kind op w) as [[diags|diags] w'] eqn:Hrun;
    simpl in *; rewrite (newEvents_app _ _ _ Hlog); intros Hi.
  - inversion Hout as [? ? Hl| |]; subst.
    eapply Forall_lookup_1 in Hl; [|exact Hi]. discriminate.
  - inversion Hout as [|? ? Hl|l0 c0 err0 format Hl0]; subst.
    { eapply Forall_lookup_1 in Hl; [|exact Hi]. discriminate. }
    assert (Hlen : i = length l0).
    { destruct (decide (i < length l0)%nat) as [Hlt|Hge].
      - rewrite lookup_app_l in Hi by done.
        eapply Forall_lookup_1 in Hl0; [|exact Hi]. discriminate.
      - apply lookup_lt_Some in Hi. rewrite length_app in Hi. simpl in Hi. lia. }
    subst i. rewrite list_lookup_middle in Hi by done.
    injection Hi as -> ->. split_and!.
    + by exists format.
    + rewrite length_app. simpl. lia.
    + intros j e Hj Hne.
      assert (Hlt : (j < length l0)%nat).
      { apply lookup_lt_Some in Hj. rewrite length_app in Hj. simpl in Hj. lia. }
      rewrite lookup_app_l in Hj by done.
      eapply Forall_lookup_1 in Hl0; [|exact Hj]. exact Hl0.
Qed.

(** Reading a resource whose ID names no guild of the in-memory Discord:
    the only request fails, and its error is reported. *)
Lemma api_error_single_diagnostic_witness :
  let w := Mock.start (SetId (Mock.planned ∅) "5") Mock.init in
  newEvents w (run (handler DiscordServer ReadContext) w).2 !! 0%nat
    = Some {| call := ApiGetGuild 5%N; failed := Some "Unknown Guild" |} ∧
  (∃ format, (run (handler DiscordServer ReadContext) w).1
             = [{| severity := Error; Summary := format +:+ "Unknown Guild" |}]) ∧
  length (newEvents w (run (handler DiscordServer ReadContext) w).2) = 1%nat.
Proof.
  intros w.
  assert (Hfailed : newEvents w (run (handler DiscordServer ReadContext) w).2 !! 0%nat
            = Some {| call := ApiGetGuild 5%N; failed := Some "Unknown Guild" |})
    by (vm_compute; reflexivity).
  split; [exact Hfailed|].
  destruct (api_error_single_diagnostic DiscordServer ReadContext w 0
              (ApiGetGuild 5%N) "Unknown Guild" Hfailed) as (Hdiag & Hlen & _).
  split; [exact Hdiag | exact Hlen].
Defined.

(** C8: [resourceServerManagedDelete] returns no diagnostics and leaves
    the resource data, the remote side and the request log as they were;
    [resourceServerDelete] sends exactly one request, the deletion of the
    guild named by the resource ID, and reports its error if it has one. *)
Theorem managed_delete_noop_delete_once `{!External} {St : Type} `{!Client St}
    (w : World St) :
  run resourceServerManagedDelete w = ([], w) ∧
  run resourceServerDelete w =
    (match (client_Delete (getId (Id (w_d w))) (w_api w)).1 with
     | Success _ => []
     | Failure err => diag_Errorf "Failed to delete server: " err
     end,
     {| w_d := w_d w;
        w_api := (client_Delete (getId (Id (w_d w))) (w_api w)).2;
        w_log := w_log w ++
          [{| call := ApiDeleteGuild (getId (Id (w_d w)));
              failed := errorOf (client_Delete (getId (Id (w_d w))) (w_api w)).1 |}] |}) ∧
  length (newEvents w (run resourceServerDelete w).2) = 1%nat.
Proof.
  split; [by destruct w|].
  unfold run, resourceServerDelete, DeleteGuild, request, newEvents,
    mbind, M_bind, getData; simpl.
  destruct (client_Delete (getId (Id (w_d w))) (w_api w)) as [[[]|err] api]; simpl;
    rewrite drop_app_length; done.
Qed.

(** C10: [resourceServerManagedCreate] sends no request and leaves the
    remote side as it was.  When server_id is unset (or its value is not a
    string) it returns one error diagnostic and leaves the resource data,
    with its ID, as it was; otherwise it sets the resource ID to the
    server_id string, changes no attribute and returns no diagnostics. *)
Theorem managed_create_sets_id `{!External} {St : Type} `{!Client St} (w : World St) :
  w_log (run resourceServerManagedCreate w).2 = w_log w ∧
  w_api (run resourceServerManagedCreate w).2 = w_api w ∧
  match GetOk (w_d w) "server_id" with
  | (VString serverId, true) =>
      (run resourceServerManagedCreate w).1 = [] ∧
      w_d (run resourceServerManagedCreate w).2 = SetId (w_d w) serverId ∧
      Id (w_d (run resourceServerManagedCreate w).2) = serverId
  | (_, false) =>
      (run resourceServerManagedCreate w).1
        = [{| severity := Error; Summary := "Error: server_id must be set" |}] ∧
      w_d (run resourceServerManagedCreate w).2 = w_d w
  | (_, true) =>
      (run resourceServerManagedCreate w).1
        = [{| severity := Error; Summary := "Error: server_id must be a string" |}] ∧
      w_d (run resourceServerManagedCreate w).2 = w_d w
  end.
Proof.
  unfold run, resourceServerManagedCreate, mbind, M_bind, getData; simpl.
  destruct (GetOk (w_d w) "server_id") as [[|serverId|n] [|]]; simpl; done.
Qed.

(** ** Reading and writing the resource data *)

Arguments Get : simpl never.
Arguments GetOld : simpl never.
Arguments GetOk : simpl never.
Arguments HasChange : simpl never.
Arguments Set_ : simpl never.

Lemma schemaOf_string (kind : ResourceKind) (key : string) :
  key ∈ stringKeys →
  ∃ sch, schemaOf kind !! key = Some sch ∧ Type_ sch = TypeString ∧ Default sch = None.
Proof.
  unfold stringKeys. rewrite !elem_of_cons, elem_of_nil.
  intros H; destruct kind;
    repeat (destruct H as [->|H]; [eexists; split; [by vm_compute | done]|]);
    destruct H.
Qed.

Lemma schemaOf_int (kind : ResourceKind) (key : string) :
  key ∈ intKeys →
  ∃ sch n, schemaOf kind !! key = Some sch ∧ Type_ sch = TypeInt
           ∧ Default sch = Some (VInt n).
Proof.
  unfold intKeys. rewrite !elem_of_cons, elem_of_nil.
  intros H; destruct kind;
    repeat (destruct H as [->|H]; [eexists _, _; split; [by vm_compute | done]|]);
    destruct H.
Qed.

(** [Get] returns a string at a string field and an integer at an integer
    field, so the type assertions of the handlers never fail. *)
Lemma Get_string (d : ResourceData) (key : string) :
  key ∈ stringKeys → Get d key = VString (toString (Get d key)).
Proof.
  intros Hk. destruct (schemaOf_string (rd_kind d) key Hk) as (sch & Hs & Ht & Hd).
  unfold Get, readField. rewrite Hs, Ht, Hd.
  destruct (rd_new d !! key) as [[|s|n]|]; done.
Qed.

Lemma Get_int (d : ResourceData) (key : string) :
  key ∈ intKeys → Get d key = VInt (toInt (Get d key)).
Proof.
  intros Hk. destruct (schemaOf_int (rd_kind d) key Hk) as (sch & n0 & Hs & Ht & Hd).
  unfold Get, readField. rewrite Hs, Ht, Hd.
  destruct (rd_new d !! key) as [[|s|n]|]; done.
Qed.

Lemma Set_kind (d : ResourceData) (key : string) (value : Value) :
  rd_kind (Set_ d key value).1 = rd_kind d.
Proof.
  unfold Set_. destruct (schemaOf (rd_kind d) !! key) as [sch|]; [|done].
  by destruct (hasType value (Type_ sch)).
Qed.

Lemma Set_id (d : ResourceData) (key : string) (value : Value) :
  rd_id (Set_ d key value).1 = rd_id d.
Proof.
  unfold Set_. destruct (schemaOf (rd_kind d) !! key) as [sch|]; [|done].
  by destruct (hasType value (Type_ sch)).
Qed.

(** A [d.Set] leaves every other field as it was. *)
Lemma Set_lookup_ne (d : ResourceData) (key key' : string) (value : Value) :
  key ≠ key' → rd_new (Set_ d key value).1 !! key' = rd_new d !! key'.
Proof.
  intros Hne. unfold Set_. destruct (schemaOf (rd_kind d) !! key) as [sch|]; [|done].
  destruct (hasType value (Type_ sch)); [|done]. simpl. by rewrite lookup_insert_ne.
Qed.

Lemma Get_Set_ne (d : ResourceData) (key key' : string) (value : Value) :
  key ≠ key' → Get (Set_ d key value).1 key' = Get d key'.
Proof.
  intros Hne. unfold Get, readField.
  by rewrite Set_kind, Set_lookup_ne.
Qed.

(** A [d.Set] of a string at a string field stores it. *)
Lemma Set_lookup_string (d : ResourceData) (key : string) (s : string) :
  key ∈ stringKeys → rd_new (Set_ d key (VString s)).1 !! key = Some (VString s).
Proof.
  intros Hk. destruct (schemaOf_string (rd_kind d) key Hk) as (sch & Hs & Ht & Hd).
  unfold Set_. rewrite Hs, Ht. simpl. by rewrite lookup_insert_eq.
Qed.

Lemma Set_lookup_int (d : ResourceData) (key : string) (n : Z) :
  key ∈ intKeys → rd_new (Set_ d key (VInt n)).1 !! key = Some (VInt n).
Proof.
  intros Hk. destruct (schemaOf_int (rd_kind d) key Hk) as (sch & n0 & Hs & Ht & Hd).
  unfold Set_. rewrite Hs, Ht. simpl. by rewrite lookup_insert_eq.
Qed.

Lemma Get_Set_string (d : ResourceData) (key : string) (s : string) :
  key ∈ stringKeys → Get (Set_ d key (VString s)).1 key = VString s.
Proof.
  intros Hk. destruct (schemaOf_string (rd_kind d) key Hk) as (sch & Hs & Ht & Hd).
  unfold Get, readField. by rewrite Set_kind, Hs, Set_lookup_string, Ht.
Qed.

Lemma Get_Set_int (d : ResourceData) (key : string) (n : Z) :
  key ∈ intKeys → Get (Set_ d key (VInt n)).1 key = VInt n.
Proof.
  intros Hk. destruct (schemaOf_int (rd_kind d) key Hk) as (sch & n0 & Hs & Ht & Hd).
  unfold Get, readField. by rewrite Set_kind, Hs, Set_lookup_int, Ht.
Qed.

(** [d.Set("owner", ...)] names no field of the schema: it changes nothing. *)
Lemma Set_owner_refused (d : ResourceData) (value : Value) :
  (Set_ d "owner" value).1 = d ∧ is_Some (Set_ d "owner" value).2.
Proof. unfold Set_. destruct (rd_kind d); vm_compute; eauto. Qed.

Lemma Get_SetId (d : ResourceData) (v key : string) : Get (SetId d v) key = Get d key.
Proof. done. Qed.

(** Membership of a literal key in [stringKeys] or [intKeys]. *)
Ltac key_in := apply (bool_decide_unpack _); vm_compute; exact I.

(** ** Running a handler step by step *)

Section Steps.
Context {St : Type}.
Implicit Types w : World St.

Lemma bind_ret {A B} (a : A) (f : A → M St B) w : (mret a ≫= f) w = f a w.
Proof. done. Qed.

Lemma bind_assoc {A B C} (m : M St A) (g : A → M St B) (f : B → M St C) w :
  ((m ≫= g) ≫= f) w = (m ≫= λ a, g a ≫= f) w.
Proof. unfold mbind, M_bind. by destruct (m w) as [[a|diags] w']. Qed.

Lemma bind_returnDiags {A B} (diags : Diagnostics) (f : A → M St B) w :
  (returnDiags diags ≫= f) w = (Return diags, w).
Proof. done. Qed.

Lemma bind_getData {B} (f : ResourceData → M St B) w :
  (getData ≫= f) w = f (w_d w) w.
Proof. done. Qed.

Lemma bind_d_Set {B} (key : string) (value : Value) (f : unit → M St B) w :
  (d_Set key value ≫= f) w
  = f () {| w_d := (Set_ (w_d w) key value).1; w_api := w_api w; w_log := w_log w |}.
Proof. done. Qed.

Lemma bind_d_SetId {B} (v : string) (f : unit → M St B) w :
  (d_SetId v ≫= f) w
  = f () {| w_d := SetId (w_d w) v; w_api := w_api w; w_log := w_log w |}.
Proof. done. Qed.

Lemma bind_request {A B} (c : ApiCall) (method : St → result A * St)
    (f : result A → M St B) w :
  (request c method ≫= f) w
  = f (method (w_api w)).1
      {| w_d := w_d w; w_api := (method (w_api w)).2;
         w_log := w_log w ++ [{| call := c; failed := errorOf (method (w_api w)).1 |}] |}.
Proof. unfold mbind, M_bind, request. by destruct (method (w_api w)). Qed.

End Steps.

Ltac step :=
  first [ rewrite bind_assoc | rewrite bind_ret | rewrite bind_returnDiags
        | rewrite bind_getData | rewrite bind_d_Set | rewrite bind_d_SetId
        | rewrite bind_request ];
  cbn [w_d w_api w_log].

(** ** [resourceServerRead] *)

(** C9: when the guild is fetched, [resourceServerRead] writes
    afk_channel_id only if the guild's AFK channel ID is not zero, and
    writes owner_id only if the owner_id of the resource data is not empty
    and the guild's owner ID is not zero; what it writes is the text of
    that non-zero ID, and otherwise it leaves the field as it was.  When
    the fetch fails it leaves the whole resource data as it was. *)
Theorem read_keeps_afk_channel_and_owner `{!External} {St : Type} `{!Client St}
    (w : World St) :
  match (client_Get (getId (Id (w_d w))) (w_api w)).1 with
  | Failure _ => w_d (run resourceServerRead w).2 = w_d w
  | Success server =>
      rd_new (w_d (run resourceServerRead w).2) !! "afk_channel_id" =
        (if IsZero (Guild.AfkChannelID server)
         then rd_new (w_d w) !! "afk_channel_id"
         else Some (VString (Snowflake_String (Guild.AfkChannelID server)))) ∧
      rd_new (w_d (run resourceServerRead w).2) !! "owner_id" =
        (if bool_decide (toString (Get (w_d w) "owner_id") ≠ "")
            && negb (IsZero (Guild.OwnerID server))
         then Some (VString (Snowflake_String (Guild.OwnerID server)))
         else rd_new (w_d w) !! "owner_id")
  end.
Proof.
  destruct w as [d api log]; cbn [w_d w_api].
  unfold run, resourceServerRead, GetGuild. do 3 step.
  destruct (client_Get (getId (Id d)) api) as [[server|err] api'];
    cbn [fst snd orReturn errorOf]; [|by step].
  do 10 step.
  destruct (IsZero (Guild.AfkChannelID server)); cbn [negb when]; repeat step;
    rewrite !Get_Set_ne by discriminate;
    destruct (bool_decide (toString (Get d "owner_id") ≠ "")
              && negb (IsZero (Guild.OwnerID server)));
    cbn [when]; repeat step; cbn [mret M_ret snd w_d];
    (split;
     [ rewrite ?(Set_lookup_ne _ "owner_id") by discriminate;
       rewrite ?Set_lookup_string by key_in;
       rewrite ?Set_lookup_ne by discriminate; reflexivity
     | rewrite ?Set_lookup_string by key_in;
       rewrite ?Set_lookup_ne by discriminate; reflexivity ]).
Qed.

(** ** [resourceServerCreate] *)

Section Create.
Context `{!External} {St : Type} `{!Client St}.

(** The loop over the channels deletes them in order and stops at the
    first error. *)
Lemma forRange_delete (format : string) (channels : list Channel.t) (w : World St) :
  ∃ (deleted : list Channel.t) (events : list Event) (api : St),
    deleted `prefix_of` channels ∧
    call <$> events = (λ c, ApiDeleteChannel (Channel.ID c)) <$> deleted ∧
    let w' := {| w_d := w_d w; w_api := api; w_log := w_log w ++ events |} in
    let loop := forRange channels (λ channel,
                  _ ← DeleteChannel (Channel.ID channel) ≫= orReturn format; mret ()) in
    (loop w = (Continue (), w') ∧ deleted = channels) ∨
    (∃ err, loop w = (Return (diag_Errorf format err), w')).
Proof.
  unfold DeleteChannel. revert w.
  induction channels as [|ch rest IH]; intros [d api log]; cbn [w_d w_api w_log].
  - exists [], [], api. rewrite app_nil_r. split_and!; [done | done | by left].
  - cbn [forRange].
    destruct (client_DeleteChannel (Channel.ID ch) api) as [[c|err] api1] eqn:Hdel.
    + destruct (IH {| w_d := d; w_api := api1;
                      w_log := log ++ [{| call := ApiDeleteChannel (Channel.ID ch);
                                          failed := None |}] |})
        as (deleted & events & api2 & Hpre & Hcalls & Hrun).
      cbn [w_d w_api w_log] in Hrun.
      exists (ch :: deleted),
        ({| call := ApiDeleteChannel (Channel.ID ch); failed := None |} :: events), api2.
      split_and!.
      * by apply prefix_cons.
      * cbn. by rewrite Hcalls.
      * cbn zeta. do 3 step. rewrite Hdel. cbn [fst snd orReturn errorOf]. do 2 step.
        rewrite <- app_assoc in Hrun. cbn [app] in Hrun.
        destruct Hrun as [[Hrun ->]|[err Hrun]]; [left | right; exists err]; by rewrite Hrun.
    + exists [ch], [{| call := ApiDeleteChannel (Channel.ID ch); failed := Some err |}], api1.
      split_and!.
      * by apply prefix_cons, prefix_nil.
      * done.
      * cbn zeta. right. exists err. do 3 step. rewrite Hdel.
        cbn [fst snd orReturn errorOf]. by step.
Qed.

Lemma bind_run {A B} (m : M St A) (f : A → M St B) (w : World St) :
  (m ≫= f) w = match m w with
               | (Continue a, w') => f a w'
               | (Return diags, w') => (Return diags, w')
               end.
Proof. done. Qed.

Lemma sends_ret {A} (a : A) : sends (mret a : M St A) [].
Proof.
  intros [d api log]. exists [], api. cbn zeta. cbn [w_d w_log]. rewrite app_nil_r.
  left. by exists a.
Qed.

Lemma sends_request {A} (c : ApiCall) (method : St → result A * St) (format : string) :
  sends (request c method ≫= orReturn format) [c].
Proof.
  intros [d api log]. exists [{| call := c; failed := errorOf (method api).1 |}], (method api).2.
  cbn zeta. cbn [w_d w_log]. step.
  destruct (method api) as [[a|err] api']; cbn [fst snd orReturn errorOf].
  - left. by exists a.
  - right. by exists (diag_Errorf format err).
Qed.

Lemma sends_bind {A B} (m : M St A) (f : A → M St B) (e1 e2 : list ApiCall) :
  sends m e1 → (∀ a, sends (f a) e2) → sends (m ≫= f) (e1 ++ e2).
Proof.
  intros Hm Hf w. destruct (Hm w) as (ev1 & api1 & [(a & Hrun1 & Hc1)|(ds & Hrun1 & Hds & Hc1)]).
  - destruct (Hf a {| w_d := w_d w; w_api := api1; w_log := w_log w ++ ev1 |})
      as (ev2 & api2 & Hrun2). cbn [w_d w_log] in Hrun2.
    exists (ev1 ++ ev2), api2. cbn zeta. rewrite bind_run, Hrun1, app_assoc, fmap_app, Hc1.
    destruct Hrun2 as [(b & Hrun2 & Hc2)|(ds & Hrun2 & Hds & Hc2)].
    + left. exists b. by rewrite Hc2.
    + right. exists ds. split_and!; [done | done | by apply prefix_app].
  - exists ev1, api1. cbn zeta. rewrite bind_run, Hrun1. right. exists ds.
    split_and!; [done | done | by apply prefix_app_r].
Qed.

Lemma sends_when (cond : bool) (body : M St unit) (e : list ApiCall) :
  sends body e → sends (when cond body) (if cond then e else []).
Proof. destruct cond; [done | intros _; apply sends_ret]. Qed.

Lemma create_edit_requests_sends (d : ResourceData) (server : Guild.t) :
  sends (create_edit_requests d server) (create_edit_calls d server).
Proof.
  unfold create_edit_requests, create_edit_calls, Update, Execute.
  destruct (create_edit d server) as [[[splash afkChannel] afkTimeOut] edit].
  apply sends_when.
  apply (sends_bind _ _ [_] [_]); [apply sends_request | intros _].
  apply (sends_bind _ _ [_] []); [apply sends_request | intros _; apply sends_ret].
Qed.

Lemma create_owner_request_sends (d : ResourceData) (server : Guild.t) :
  sends (create_owner_request d server) (create_owner_calls d server).
Proof.
  unfold create_owner_request, create_owner_calls, Update.
  destruct (GetOk d "owner_id") as [v [|]]; cbn [andb when]; [|apply sends_ret].
  apply sends_when.
  apply (sends_bind _ _ [_] []); [apply sends_request | intros _; apply sends_ret].
Qed.

(** The last lines of the handler send nothing and cannot fail; they set
    the ID and leave the configurable attributes as they were. *)
Lemma create_state_run (server : Guild.t) (w : World St) :
  ∃ d', create_state server w
        = (Continue (), {| w_d := d'; w_api := w_api w; w_log := w_log w |})
        ∧ Id d' = Snowflake_String (Guild.ID server)
        ∧ ∀ key, key ∈ configurable → Get d' key = Get (w_d w) key.
Proof.
  destruct w as [d api log]. unfold create_state. do 2 step.
  assert (Hkeys : ∀ key, key ∈ configurable → key ≠ "icon_hash" ∧ key ≠ "splash_hash").
  { intros key Hkey. unfold configurable in Hkey.
    rewrite !elem_of_cons, elem_of_nil in Hkey.
    split; intros ->; repeat (destruct Hkey as [Hkey|Hkey]; [discriminate|]);
      destruct Hkey. }
  destruct (negb (GetOk (SetId d (Snowflake_String (Guild.ID server))) "owner_id").2);
    cbn [when]; repeat step; unfold d_Set; cbn [w_d w_api w_log];
    rewrite ?(proj1 (Set_owner_refused _ _));
    (eexists; split; [reflexivity|split]);
    [ unfold Id; by rewrite !Set_id
    | intros key [Hi Hs]%Hkeys; by rewrite !Get_Set_ne, Get_SetId by done
    | unfold Id; by rewrite !Set_id
    | intros key [Hi Hs]%Hkeys; by rewrite !Get_Set_ne, Get_SetId by done ].
Qed.

Lemma create_patches_nonempty (d : ResourceData) (server : Guild.t) :
  create_patches d server ≠ [] ↔ extras_configured d server.
Proof.
  unfold create_patches, create_edit_calls, create_owner_calls, extras_configured,
    create_edit.
  destruct (GetOk d "afk_channel_id") as [v1 ok1], (GetOk d "afk_timeout") as [v2 ok2],
    (GetOk d "owner_id") as [v3 ok3]; cbn [fst snd].
  destruct (bool_decide (create_splash d ≠ "")) eqn:Hs;
    [apply bool_decide_eq_true in Hs | apply bool_decide_eq_false in Hs];
    (destruct (bool_decide (Guild.OwnerID server ≠ ParseSnowflakeString (toString v3))) eqn:Ho;
     [apply bool_decide_eq_true in Ho | apply bool_decide_eq_false in Ho]);
    destruct ok1, ok2, ok3; cbn [andb app]; split; intros Hx;
    try discriminate; try (by auto); try (by destruct Hx);
    try (by right; right; right);
    destruct Hx as [?|[?|[?|[? ?]]]]; done.
Qed.

(** C5: [resourceServerCreate] first sends the guild creation, and
    nothing else when that fails.  Then it fetches the channels of the new
    guild, deletes them in the order received, and only after all of them
    are deleted sends the requests for the extra fields, in the order of
    [create_patches]; a failing request ends the sequence.  Requests for
    extra fields exist exactly when a splash, an AFK channel, an AFK
    timeout or an owner other than the guild's is configured. *)
Theorem create_request_order (w : World St) :
  let d := w_d w in
  let name := toString (Get d "name") in
  let create := ApiCreateGuild name (create_params d) in
  let created := client_CreateGuild name (create_params d) (w_api w) in
  let diags := (run resourceServerCreate w).1 in
  let calls := call <$> newEvents w (run resourceServerCreate w).2 in
  match created.1 with
  | Failure _ => calls = [create]
  | Success server =>
      let fetched := client_GetChannels (Guild.ID server) created.2 in
      ∃ (deleted : list Channel.t) (patches : list ApiCall),
        calls = create :: ApiGetChannels (Guild.ID server)
                  :: ((λ c, ApiDeleteChannel (Channel.ID c)) <$> deleted) ++ patches ∧
        match fetched.1 with
        | Success channels => deleted `prefix_of` channels
        | Failure _ => deleted = []
        end ∧
        patches `prefix_of` create_patches d server ∧
        (patches = [] ∨ fetched.1 = Success deleted) ∧
        (diags ≠ [] ∨ (fetched.1 = Success deleted ∧ patches = create_patches d server)) ∧
        (create_patches d server ≠ [] ↔ extras_configured d server)
  end.
Proof.
  destruct w as [d api log]. cbn zeta. cbn [w_d w_api].
  unfold run, resourceServerCreate, CreateGuild, GetChannels, newEvents. cbn [w_log].
  do 3 step.
  destruct (client_CreateGuild (toString (Get d "name")) (create_params d) api)
    as [[server|err] api1]; cbn [fst snd orReturn errorOf].
  2:{ step. cbn [snd w_log]. by rewrite drop_app_length. }
  do 3 step.
  destruct (client_GetChannels (Guild.ID server) api1) as [[channels|err] api2];
    cbn [fst snd orReturn errorOf].
  2:{ step. cbn [fst snd w_log]. exists [], []. rewrite <- app_assoc, drop_app_length.
      split_and!; [done | done | apply prefix_nil | by left | by left
                  | apply create_patches_nonempty]. }
  step.
  match goal with |- context [(forRange channels ?body ≫= ?f) ?w0] =>
    rewrite (bind_run (forRange channels body) f w0);
    destruct (forRange_delete "Failed to delete channel for new server: " channels w0)
      as (deleted & ev0 & api3 & Hpre & Hcalls & Hloop) end.
  cbn zeta in Hloop. cbn [w_d w_api w_log] in Hloop.
  destruct Hloop as [[Hloop ->]|[err Hloop]]; rewrite Hloop.
  2:{ cbn [fst snd w_log]. exists deleted, [].
      rewrite <- !app_assoc, drop_app_length, app_nil_r. cbn [app fmap list_fmap].
      rewrite <- Hcalls.
      split_and!; [done | done | apply prefix_nil | by left | by left
                  | apply create_patches_nonempty]. }
  pose proof (sends_bind _ _ _ _ (create_edit_requests_sends d server)
                (λ _, create_owner_request_sends d server)) as Hpatches.
  rewrite <- bind_assoc.
  match goal with |- context [(?m ≫= ?f) ?w0] =>
    rewrite (bind_run m f w0); destruct (Hpatches w0) as (ev1 & api4 & Hrun) end.
  cbn zeta in Hrun. cbn [w_d w_api w_log] in Hrun.
  destruct Hrun as [([] & Hrun & Hc1)|(ds & Hrun & Hds & Hc1)]; rewrite Hrun.
  - match goal with |- context [(create_state server ≫= ?f) ?w0] =>
      rewrite (bind_run (create_state server) f w0);
      destruct (create_state_run server w0) as (d' & Hstate & _); rewrite Hstate end.
    cbn [mret M_ret fst snd w_log w_api].
    exists channels, (create_patches d server).
    rewrite <- !app_assoc, drop_app_length. cbn [app]. rewrite !fmap_cons, fmap_app.
    cbn [call]. rewrite Hcalls, Hc1.
    split_and!; [done | done | done | by right | by right | apply create_patches_nonempty].
  - cbn [fst snd w_log]. exists channels, (call <$> ev1).
    rewrite <- !app_assoc, drop_app_length. cbn [app]. rewrite !fmap_cons, fmap_app.
    cbn [call]. rewrite Hcalls.
    split_and!; [done | done | done | by right | by left | apply create_patches_nonempty].
Qed.

End Create.

(** ** [resourceServerUpdate] *)

Section UpdateBuilder.
Context `{!External}.

Lemma ifThenSet_edit cond set s : (ifThenSet cond set s).2 = cond || s.2.
Proof. by destruct cond. Qed.

Lemma ifThenSet_splash cond set s :
  (∀ b, UpdateBuilder.splash (set b) = UpdateBuilder.splash b) →
  UpdateBuilder.splash (ifThenSet cond set s).1 = UpdateBuilder.splash s.1.
Proof. intros Hset. destruct cond; [apply Hset | done]. Qed.

(** The edit flag: a tracked attribute has changed, or owner_id is set. *)
Lemma update_builder_edit (d : ResourceData) (server : Guild.t) :
  (update_builder d server).2
  = existsb (HasChange d) trackedKeys || (GetOk d "owner_id").2.
Proof.
  unfold update_builder. destruct (GetOk d "owner_id") as [ownerId hasOwner].
  cbn [existsb trackedKeys snd].
  destruct (HasChange d "owner_id"); rewrite !ifThenSet_edit; cbn [snd]; btauto.
Qed.

(** No block of the update sets the splash of the builder. *)
Lemma update_builder_splash (d : ResourceData) (server : Guild.t) :
  UpdateBuilder.splash (update_builder d server).1 = None.
Proof.
  unfold update_builder. destruct (GetOk d "owner_id") as [ownerId hasOwner].
  destruct (HasChange d "owner_id"); by rewrite !ifThenSet_splash.
Qed.

End UpdateBuilder.

Lemma changed_or_owner_edit `{!External} (d : ResourceData) (server : Guild.t) :
  (update_builder d server).2 = true ↔ changed_or_owner d.
Proof.
  rewrite update_builder_edit, orb_true_iff, existsb_exists. unfold changed_or_owner.
  by setoid_rewrite <- list_elem_of_In.
Qed.

Section Update.
Context `{!External} {St : Type} `{!Client St}.

(** C2, as the code has it: after a successful fetch of the guild,
    [resourceServerUpdate] executes the builder, once and as its last
    request, if and only if one of the twelve tracked attributes has
    changed or owner_id is set; otherwise the fetch is its only request,
    the remote side stays as the fetch left it and no diagnostics are
    returned.  When the fetch fails it is the only request.  The resource
    data is never written. *)
Theorem update_executes_iff_changed_or_owner (w : World St) :
  let d := w_d w in
  let fetch := ApiGetGuild (getId (Id d)) in
  let fetched := client_Get (getId (Id d)) (w_api w) in
  let calls := call <$> newEvents w (run resourceServerUpdate w).2 in
  w_d (run resourceServerUpdate w).2 = d ∧
  match fetched.1 with
  | Failure _ => calls = [fetch]
  | Success server =>
      (changed_or_owner d ∧
       calls = [fetch; ApiExecute (Guild.ID server) (update_builder d server).1]) ∨
      (¬ changed_or_owner d ∧ calls = [fetch] ∧
       w_api (run resourceServerUpdate w).2 = fetched.2 ∧
       (run resourceServerUpdate w).1 = [])
  end.
Proof.
  destruct w as [d api log]. cbn zeta. cbn [w_d w_api].
  unfold run, resourceServerUpdate, GetGuild, Execute, newEvents. cbn [w_log].
  do 3 step.
  destruct (client_Get (getId (Id d)) api) as [[server|err] api1];
    cbn [fst snd orReturn errorOf].
  2:{ step. cbn [snd w_d w_log]. by rewrite drop_app_length. }
  step.
  pose proof (changed_or_owner_edit d server) as Hedit.
  destruct (update_builder d server) as [builder [|]]; cbn [fst snd when] in *.
  - repeat step.
    destruct (client_Execute (Guild.ID server) builder api1) as [[g|err] api2];
      cbn [fst snd orReturn errorOf]; repeat step; cbn [mret M_ret fst snd w_d w_log];
      rewrite <- app_assoc, drop_app_length; (split; [done|]); left;
      (split; [by apply Hedit | done]).
  - step. cbn [mret M_ret fst snd w_d w_api w_log]. rewrite drop_app_length.
    split; [done|]. right. split_and!; try done.
    intros Hc. apply Hedit in Hc. discriminate.
Qed.

End Update.

(** The resource data of an update in which nothing has changed. *)
Lemma HasChange_same (kind : ResourceKind) (id : string) (m : gmap string Value) :
  map_Forall (λ key sch, is_Some (Default sch) → is_Some (readField sch m key))
             (schemaOf kind) →
  ∀ key, HasChange {| rd_kind := kind; rd_id := id; rd_state := m; rd_new := m |} key
         = false.
Proof.
  intros Hdef key. unfold HasChange, GetOld, Get. cbn [rd_kind rd_state rd_new].
  apply bool_decide_eq_false. intros Hne. apply Hne.
  destruct (schemaOf kind !! key) as [sch|] eqn:Hsch; [|done].
  specialize (Hdef key sch Hsch). cbn beta in Hdef.
  destruct (readField sch m key) as [v|]; [done|].
  destruct (Default sch) as [v|]; [|done].
  destruct Hdef as [v' Hv']; [by eexists | discriminate].
Qed.

(** C2, as stated, fails: with owner_id set and no attribute changed the
    update still executes a builder (which sets the owner to the guild's
    owner). *)
Lemma update_without_change_counterexample :
  let attrs := <["owner_id" := VString "7"]> Mock.applied in
  ¬ update_iff_changed (Mock.start (Mock.resource attrs attrs) (Mock.existing 7%N)).
Proof.
  intros attrs [Hexec _].
  destruct Hexec as [key Hkey].
  - exists 1000%N, (UpdateBuilder.SetOwnerID 7%N UpdateBuilder.new).
    vm_compute. apply list_elem_of_In. right. by left.
  - assert (Hsame : HasChange (Mock.resource attrs attrs) key = false).
    { apply (HasChange_same DiscordServer "1000" attrs).
      apply (bool_decide_unpack _). by vm_compute. }
    change (HasChange (Mock.resource attrs attrs) key = true) in Hkey. congruence.
Qed.

(** An update Terraform can plan: only server_id of a managed server has
    changed, which [resourceServerUpdate] does not track.  With owner_id
    set the builder is executed, with the guild's own owner; with owner_id
    unset nothing is sent after the fetch. *)
Example update_untracked_change_with_owner :
  let state := <["owner_id" := VString "7"]>
                 (<["server_id" := VString "1000"]> Mock.applied) in
  let d := Mock.managed state (<["server_id" := VString "2000"]> state) in
  let w := Mock.start d (Mock.existing 7%N) in
  HasChange d "server_id" = true ∧
  existsb (HasChange d) trackedKeys = false ∧
  call <$> newEvents w (run resourceServerUpdate w).2
    = [ApiGetGuild 1000%N;
       ApiExecute 1000%N (UpdateBuilder.SetOwnerID 7%N UpdateBuilder.new)].
Proof. by vm_compute. Qed.

Example update_untracked_change_without_owner :
  let state := <["server_id" := VString "1000"]> Mock.applied in
  let d := Mock.managed state (<["server_id" := VString "2000"]> state) in
  let w := Mock.start d (Mock.existing 7%N) in
  HasChange d "server_id" = true ∧
  existsb (HasChange d) trackedKeys = false ∧
  call <$> newEvents w (run resourceServerUpdate w).2 = [ApiGetGuild 1000%N].
Proof. by vm_compute. Qed.

(** C1: the builder of [resourceServerUpdate] never carries a splash.
    When only splash_data_uri has changed, the one update request sets the
    icon to the new splash and no splash, and the in-memory Discord ends
    with that icon and its old splash. *)
Theorem update_splash_change_sets_icon :
  (∀ `{!External} d server, UpdateBuilder.splash (update_builder d server).1 = None) ∧
  let new := <["splash_data_uri" := VString "data:image/png;base64,AAAA"]> Mock.applied in
  let d := Mock.resource Mock.applied new in
  let w := Mock.start d (Mock.existing 1%N) in
  HasChange d "splash_data_uri" = true ∧
  call <$> newEvents w (run resourceServerUpdate w).2
    = [ApiGetGuild 1000%N;
       ApiExecute 1000%N
         (UpdateBuilder.SetIcon "data:image/png;base64,AAAA" UpdateBuilder.new)] ∧
  Mock.guilds (w_api (run resourceServerUpdate w).2) !! 1000%N
    = Some (Mock.patchBuilder
              (UpdateBuilder.SetIcon "data:image/png;base64,AAAA" UpdateBuilder.new)
              (Mock.guild1000 1%N)) ∧
  (Guild.Icon <$> Mock.guilds (w_api (run resourceServerUpdate w).2) !! 1000%N)
    = Some "data:image/png;base64,AAAA" ∧
  (Guild.Splash <$> Mock.guilds (w_api (run resourceServerUpdate w).2) !! 1000%N)
    = Some "".
Proof.
  split; [intros; apply update_builder_splash|]. by vm_compute.
Qed.

(** ** Create, then read, against the in-memory Discord *)

Lemma to_int_to_uint (v : Z) : -2 ^ 63 ≤ v < 2 ^ 63 → to_int (to_uint v) = v.
Proof.
  intros Hv. unfold to_int, to_uint.
  destruct (decide (0 ≤ v)) as [Hpos|Hneg].
  - rewrite (Z.mod_small v) by lia. rewrite Z.mod_small by lia. lia.
  - replace (v `mod` 2 ^ 64) with (v + 2 ^ 64).
    + replace (v + 2 ^ 64 + 2 ^ 63) with (v + 2 ^ 63 + 1 * 2 ^ 64) by lia.
      rewrite Z.mod_add by lia. rewrite Z.mod_small by lia. lia.
    + apply (Z.mod_unique _ _ (-1)); lia.
Qed.

Lemma to_uint_small (v : Z) : 0 ≤ v < 2 ^ 64 → to_uint v = v.
Proof. intros Hv. unfold to_uint. by rewrite Z.mod_small. Qed.

Lemma verification_level_accepted (v : Z) (key : string) :
  (validate_verification_level v key).2 = [] → 0 ≤ v ≤ 4.
Proof.
  unfold validate_verification_level; cbv zeta.
  destruct (Z.gtb_spec v 4), (Z.ltb_spec v 0); cbn [orb snd app];
    first [discriminate | lia].
Qed.

Lemma explicit_content_filter_accepted (v : Z) (key : string) :
  (validate_explicit_content_filter v key).2 = [] → 0 ≤ v ≤ 2.
Proof.
  unfold validate_explicit_content_filter; cbv zeta.
  destruct (Z.gtb_spec v 2), (Z.ltb_spec v 0); cbn [orb snd app];
    first [discriminate | lia].
Qed.

Lemma default_message_notifications_accepted (v : Z) (key : string) :
  (validate_default_message_notifications v key).2 = [] → 0 ≤ v ≤ 1.
Proof.
  unfold validate_default_message_notifications; cbv zeta.
  destruct (Z.eqb_spec v 0), (Z.eqb_spec v 1); cbn [negb andb snd app];
    first [discriminate | lia].
Qed.

Lemma afk_timeout_accepted (v : Z) (key : string) :
  (validate_afk_timeout v key).2 = [] → 60 ≤ v ≤ 3600.
Proof.
  unfold validate_afk_timeout; cbv zeta.
  destruct (contains afk_timeout_expected v) eqn:Hc; cbn [negb snd app];
    [intros _ | discriminate].
  apply contains_elem_of in Hc. unfold afk_timeout_expected in Hc.
  rewrite !elem_of_cons, elem_of_nil in Hc. lia.
Qed.

Lemma schemaOf_validators (kind : ResourceKind) :
  schemaOf kind !! "verification_level" ≫= ValidateFunc
    = Some validate_verification_level ∧
  schemaOf kind !! "explicit_content_filter" ≫= ValidateFunc
    = Some validate_explicit_content_filter ∧
  schemaOf kind !! "default_message_notifications" ≫= ValidateFunc
    = Some validate_default_message_notifications ∧
  schemaOf kind !! "afk_timeout" ≫= ValidateFunc = Some validate_afk_timeout.
Proof. destruct kind; split_and!; vm_compute; reflexivity. Qed.

Lemma validated_ranges (d : ResourceData) :
  validated d →
  0 ≤ toInt (Get d "verification_level") ≤ 4 ∧
  0 ≤ toInt (Get d "explicit_content_filter") ≤ 2 ∧
  0 ≤ toInt (Get d "default_message_notifications") ≤ 1 ∧
  60 ≤ toInt (Get d "afk_timeout") ≤ 3600.
Proof.
  unfold validated, intKeys. rewrite !Forall_cons.
  destruct (schemaOf_validators (rd_kind d)) as (-> & -> & -> & ->).
  intros (Hv & He & Hn & Ha & _).
  refine (conj _ (conj _ (conj _ _)));
    [ by eapply verification_level_accepted
    | by eapply explicit_content_filter_accepted
    | by eapply default_message_notifications_accepted
    | by eapply afk_timeout_accepted ].
Qed.

Lemma GetOk_string (d : ResourceData) (key : string) :
  key ∈ stringKeys →
  GetOk d key = (Get d key, bool_decide (toString (Get d key) ≠ "")).
Proof.
  intros Hk. destruct (schemaOf_string (rd_kind d) key Hk) as (sch & Hs & Ht & Hd).
  unfold GetOk. rewrite Hs, Ht. f_equal.
  pose proof (Get_string d key Hk) as Hg.
  destruct (Get d key) as [|s|n]; try discriminate. cbn [zeroValue toString].
  apply bool_decide_ext. split; congruence.
Qed.

Lemma GetOk_int (d : ResourceData) (key : string) :
  key ∈ intKeys →
  GetOk d key = (Get d key, bool_decide (toInt (Get d key) ≠ 0)).
Proof.
  intros Hk. destruct (schemaOf_int (rd_kind d) key Hk) as (sch & n & Hs & Ht & Hd).
  unfold GetOk. rewrite Hs, Ht. f_equal.
  pose proof (Get_int d key Hk) as Hg.
  destruct (Get d key) as [|s|m]; try discriminate. cbn [zeroValue toInt].
  apply bool_decide_ext. split; congruence.
Qed.

(** What [resourceServerRead] leaves in the resource data when the guild
    is fetched. *)
Lemma read_fetched `{!External} {St : Type} `{!Client St} (w : World St) (server : Guild.t) :
  (client_Get (getId (Id (w_d w))) (w_api w)).1 = Success server →
  (run resourceServerRead w).1 = [] ∧
  Get (w_d (run resourceServerRead w).2) "name" = VString (Guild.Name server) ∧
  Get (w_d (run resourceServerRead w).2) "region" = VString (Guild.Region server) ∧
  Get (w_d (run resourceServerRead w).2) "verification_level"
    = VInt (to_int (Guild.VerificationLevel server)) ∧
  Get (w_d (run resourceServerRead w).2) "explicit_content_filter"
    = VInt (to_int (Guild.ExplicitContentFilter server)) ∧
  Get (w_d (run resourceServerRead w).2) "default_message_notifications"
    = VInt (to_int (Guild.DefaultMessageNotifications server)) ∧
  Get (w_d (run resourceServerRead w).2) "afk_timeout"
    = VInt (to_int (Guild.AfkTimeout server)) ∧
  Get (w_d (run resourceServerRead w).2) "afk_channel_id"
    = (if IsZero (Guild.AfkChannelID server) then Get (w_d w) "afk_channel_id"
       else VString (Snowflake_String (Guild.AfkChannelID server))) ∧
  Get (w_d (run resourceServerRead w).2) "owner_id"
    = (if bool_decide (toString (Get (w_d w) "owner_id") ≠ "")
          && negb (IsZero (Guild.OwnerID server))
       then VString (Snowflake_String (Guild.OwnerID server))
       else Get (w_d w) "owner_id") ∧
  Forall (λ key, Get (w_d (run resourceServerRead w).2) key = Get (w_d w) key)
         ["icon_url"; "icon_data_uri"; "splash_url"; "splash_data_uri"].
Proof.
  destruct w as [d api log]; cbn [w_d w_api]. intros Hget.
  unfold run, resourceServerRead, GetGuild. do 3 step. rewrite Hget.
  cbn [orReturn]. do 10 step.
  destruct (IsZero (Guild.AfkChannelID server)); cbn [negb when]; repeat step;
    rewrite !Get_Set_ne by discriminate;
    destruct (bool_decide (toString (Get d "owner_id") ≠ "")
              && negb (IsZero (Guild.OwnerID server)));
    cbn [when]; repeat step; cbn [mret M_ret fst snd w_d];
    rewrite !Forall_cons, Forall_nil;
    split_and!; try done;
    repeat first [ rewrite Get_Set_string by key_in
                 | rewrite Get_Set_int by key_in
                 | rewrite Get_Set_ne by discriminate ];
    reflexivity.
Qed.

Section OnMock.
Import Mock.

Lemma mock_createGuild (name : string) (p : CreateGuild.t) :
  createGuild name p init
  = (Success (newGuild init name p),
     with_guild (newGuild init name p) [(1001%N, 1000%N); (1002%N, 1000%N)]).
Proof. reflexivity. Qed.

Lemma mock_getChannels (g : Guild.t) :
  getChannels 1000%N (with_guild g [(1001%N, 1000%N); (1002%N, 1000%N)])
  = (Success [{| Channel.ID := 1001%N |}; {| Channel.ID := 1002%N |}],
     with_guild g [(1001%N, 1000%N); (1002%N, 1000%N)]).
Proof. reflexivity. Qed.

Lemma mock_deleteChannel_1 (g : Guild.t) :
  deleteChannel 1001%N (with_guild g [(1001%N, 1000%N); (1002%N, 1000%N)])
  = (Success {| Channel.ID := 1001%N |}, with_guild g [(1002%N, 1000%N)]).
Proof. reflexivity. Qed.

Lemma mock_deleteChannel_2 (g : Guild.t) :
  deleteChannel 1002%N (with_guild g [(1002%N, 1000%N)])
  = (Success {| Channel.ID := 1002%N |}, with_guild g []).
Proof. reflexivity. Qed.

Lemma mock_modify (f : Guild.t → Guild.t) (g : Guild.t) chans :
  Guild.ID (f g) = 1000%N →
  modify f 1000%N (with_guild g chans) = (Success (f g), with_guild (f g) chans).
Proof.
  intros HID. unfold modify, with_guild, putGuild; cbn [guilds channels next me].
  by rewrite lookup_singleton_eq, HID, insert_singleton_eq.
Qed.

Lemma mock_getGuild (g : Guild.t) chans :
  getGuild 1000%N (with_guild g chans) = (Success g, with_guild g chans).
Proof. reflexivity. Qed.

Ltac mock_steps :=
  repeat first
    [ step
    | progress cbn [client_CreateGuild client_GetChannels client_DeleteChannel
                    client_Update client_Execute client_Get Mock.client Guild.ID
                    Channel.ID Mock.newGuild Mock.next Mock.init Mock.patch
                    Mock.patchBuilder forRange when fst snd orReturn errorOf] ].

Ltac mock_call lemma := mock_steps; rewrite lemma; mock_steps.

(** Creation against the fresh in-memory Discord succeeds: the guild it
    leaves carries the configured values, the resource data keeps its
    configured attributes and has the ID of the guild. *)
Lemma create_on_mock (config : gmap string Value) :
  validated (planned config) →
  ∃ d1 log g,
    run resourceServerCreate (start (planned config) init)
      = ([], {| w_d := d1; w_api := with_guild g []; w_log := log |}) ∧
    Id d1 = "1000" ∧
    (∀ key, key ∈ configurable → Get d1 key = Get (planned config) key) ∧
    Guild.Name g = toString (Get (planned config) "name") ∧
    Guild.Region g = toString (Get (planned config) "region") ∧
    Guild.VerificationLevel g = toInt (Get (planned config) "verification_level") ∧
    Guild.ExplicitContentFilter g
      = toInt (Get (planned config) "explicit_content_filter") ∧
    Guild.DefaultMessageNotifications g
      = toInt (Get (planned config) "default_message_notifications") ∧
    Guild.AfkTimeout g = toInt (Get (planned config) "afk_timeout") ∧
    Guild.AfkChannelID g
      = (if bool_decide (toString (Get (planned config) "afk_channel_id") ≠ "")
         then ParseSnowflakeString (toString (Get (planned config) "afk_channel_id"))
         else 0%N) ∧
    Guild.OwnerID g
      = (if bool_decide (toString (Get (planned config) "owner_id") ≠ "")
         then ParseSnowflakeString (toString (Get (planned config) "owner_id"))
         else 1%N).
Proof.
  intros Hvalid. destruct (validated_ranges _ Hvalid) as (Hv & He & Hn & Ha).
  set (d := planned config) in *.
  unfold run, resourceServerCreate, CreateGuild, GetChannels, DeleteChannel, start.
  mock_call mock_createGuild. mock_call mock_getChannels.
  mock_call mock_deleteChannel_1. mock_call mock_deleteChannel_2.
  unfold create_edit_requests, create_edit.
  rewrite (GetOk_string d "afk_channel_id") by key_in.
  rewrite (GetOk_int d "afk_timeout") by key_in.
  rewrite (bool_decide_eq_true_2 (toInt (Get d "afk_timeout") ≠ 0)) by lia.
  unfold create_owner_request, Update, Execute.
  rewrite (GetOk_string d "owner_id") by key_in.
  destruct (bool_decide (toString (Get d "afk_channel_id") ≠ "")) eqn:Hafk;
    (mock_call mock_modify; [|reflexivity]); (mock_call mock_modify; [|reflexivity]);
    (destruct (bool_decide (toString (Get d "owner_id") ≠ "")) eqn:Hown; cbn [when];
     [ cbn [Guild.OwnerID newGuild me init];
       match goal with |- context [when (bool_decide ?P)] =>
         destruct (bool_decide P) eqn:Hdiff end; cbn [when];
       [ mock_call mock_modify; [|reflexivity]
       | apply bool_decide_eq_false, dec_stable in Hdiff; mock_steps ]
     | mock_steps ]);
    match goal with |- context [(create_state ?server ≫= ?f) ?w0] =>
      rewrite (bind_run (create_state server) f w0);
      destruct (create_state_run server w0) as (d1 & Hst & Hid & Hkeys); rewrite Hst
    end;
    cbn [mret M_ret w_d w_api w_log] in *;
    (eexists d1, _, _; split; [reflexivity|]);
    (split; [exact Hid|]); (split; [exact Hkeys|]);
    cbn [Guild.Name Guild.Region Guild.VerificationLevel Guild.ExplicitContentFilter
         Guild.DefaultMessageNotifications Guild.AfkTimeout Guild.AfkChannelID
         Guild.OwnerID patch patchBuilder newGuild default fmap option_fmap option_map
         create_params CreateGuild.Region CreateGuild.VerificationLvl
         CreateGuild.DefaultMsgNotifications CreateGuild.ExplicitContentFilter
         UpdateGuild.OwnerID UpdateGuild.AFKChannelID UpdateGuild.Splash
         UpdateBuilder.SetAfkTimeout UpdateBuilder.new UpdateBuilder.name
         UpdateBuilder.region UpdateBuilder.owner_id UpdateBuilder.afk_channel_id
         UpdateBuilder.afk_timeout UpdateBuilder.verification_level
         UpdateBuilder.default_message_notifications
         UpdateBuilder.explicit_content_filter me init];
    rewrite ?to_int_to_uint by lia; rewrite ?to_uint_small by lia;
    split_and!; done.
Qed.

Lemma to_int_small (u : Z) : 0 ≤ u < 2 ^ 63 → to_int u = u.
Proof. intros Hu. unfold to_int. rewrite Z.mod_small by lia. lia. Qed.

(** C6: against the in-memory Discord, for a configuration that the
    validators of the schema accept and whose afk_channel_id and owner_id
    are unset or written as the client library writes snowflakes, creating
    the server and then reading it both succeed, and every configurable
    attribute, owner_id included, reads afterwards as it was configured. *)
Theorem create_then_read_round_trip (config : gmap string Value) :
  validated (planned config) →
  canonical (toString (Get (planned config) "afk_channel_id")) →
  canonical (toString (Get (planned config) "owner_id")) →
  (run resourceServerCreate (start (planned config) init)).1 = [] ∧
  (run resourceServerRead
     (run resourceServerCreate (start (planned config) init)).2).1 = [] ∧
  Forall (λ key,
            Get (w_d (run resourceServerRead
                        (run resourceServerCreate (start (planned config) init)).2).2)
                key
            = Get (planned config) key) configurable.
Proof.
  intros Hvalid Hafk Hown.
  destruct (validated_ranges _ Hvalid) as (Hv & He & Hn & Ha).
  destruct (create_on_mock config Hvalid)
    as (d1 & log & g & Hrun & Hid & Hkeys & Hname & Hregion & Hlevel & Hfilter
        & Hnotif & Htimeout & Hchannel & Howner).
  rewrite Hrun. cbn [fst snd]. clear Hrun. split; [reflexivity|].
  set (d := planned config) in *.
  destruct (read_fetched {| w_d := d1; w_api := with_guild g []; w_log := log |} g)
    as (Hdiags & Rname & Rregion & Rlevel & Rfilter & Rnotif & Rtimeout & Rchannel
        & Rowner & Rrest).
  { cbn [w_d w_api]. rewrite Hid. reflexivity. }
  cbn [w_d] in *. split; [exact Hdiags|].
  rewrite !Forall_cons, Forall_nil in Rrest.
  destruct Rrest as (Ricon & Ricond & Rsplash & Rsplashd & _).
  unfold configurable in *. rewrite !Forall_cons, Forall_nil.
  split_and!; [| | | | | | | | | | | |exact I].
  - rewrite Rname, Hname, <- Get_string by key_in. reflexivity.
  - rewrite Rregion, Hregion, <- Get_string by key_in. reflexivity.
  - rewrite Rlevel, Hlevel, to_int_small, <- Get_int by (lia || key_in). reflexivity.
  - rewrite Rfilter, Hfilter, to_int_small, <- Get_int by (lia || key_in). reflexivity.
  - rewrite Rnotif, Hnotif, to_int_small, <- Get_int by (lia || key_in). reflexivity.
  - rewrite Rchannel, Hchannel, Hkeys by key_in.
    destruct (bool_decide (toString (Get d "afk_channel_id") ≠ "")) eqn:Hs;
      [|reflexivity].
    apply bool_decide_eq_true in Hs.
    destruct Hafk as [Hafk|Hafk]; [contradiction|].
    destruct (IsZero (ParseSnowflakeString (toString (Get d "afk_channel_id"))));
      [reflexivity|].
    rewrite Hafk. symmetry. apply Get_string. key_in.
  - rewrite Rtimeout, Htimeout, to_int_small, <- Get_int by (lia || key_in). reflexivity.
  - rewrite Ricon. apply Hkeys. key_in.
  - rewrite Ricond. apply Hkeys. key_in.
  - rewrite Rsplash. apply Hkeys. key_in.
  - rewrite Rsplashd. apply Hkeys. key_in.
  - rewrite Rowner, Howner, !Hkeys by key_in.
    destruct (bool_decide (toString (Get d "owner_id") ≠ "")) eqn:Hs; cbn [andb];
      [|reflexivity].
    apply bool_decide_eq_true in Hs.
    destruct Hown as [Hown|Hown]; [contradiction|].
    destruct (IsZero (ParseSnowflakeString (toString (Get d "owner_id"))));
      cbn [negb]; [reflexivity|].
    rewrite Hown. symmetry. apply Get_string. key_in.
Qed.

(** A configuration with an owner, an AFK channel and a splash. *)
Lemma create_then_read_round_trip_witness :
  let config : gmap string Value :=
    list_to_map [("name", VString "srv"); ("owner_id", VString "7");
                 ("afk_channel_id", VString "42"); ("afk_timeout", VInt 900);
                 ("verification_level", VInt 2);
                 ("splash_data_uri", VString "data:image/png;base64,AAAA")] in
  validated (planned config) ∧
  canonical (toString (Get (planned config) "afk_channel_id")) ∧
  canonical (toString (Get (planned config) "owner_id")) ∧
  (run resourceServerCreate (start (planned config) init)).1 = [] ∧
  (run resourceServerRead
     (run resourceServerCreate (start (planned config) init)).2).1 = [] ∧
  Forall (λ key,
            Get (w_d (run resourceServerRead
                        (run resourceServerCreate (start (planned config) init)).2).2)
                key
            = Get (planned config) key) configurable.
Proof.
  intros config.
  assert (Hvalid : validated (planned config))
    by (do 4 (apply Forall_cons_2; [vm_compute; reflexivity|]); apply Forall_nil_2).
  assert (Hafk : canonical (toString (Get (planned config) "afk_channel_id")))
    by (right; vm_compute; reflexivity).
  assert (Hown : canonical (toString (Get (planned config) "owner_id")))
    by (right; vm_compute; reflexivity).
  split; [exact Hvalid|]. split; [exact Hafk|]. split; [exact Hown|].
  exact (create_then_read_round_trip config Hvalid Hafk Hown).
Defined.

End OnMock.

(** * Further properties of the handlers and the schema *)

(** ** The remaining validators and the schema tables *)

(** X1: the explicit_content_filter validator returns one error exactly
    when the value is outside 0..2, and neither warnings nor errors for
    every value inside. *)
Theorem validate_explicit_content_filter_range (v : Z) (key : string) :
  ((∃ err, (validate_explicit_content_filter v key).2 = [err]) ↔ ¬ (0 ≤ v ≤ 2)) ∧
  (validate_explicit_content_filter v key = ([], []) ↔ 0 ≤ v ≤ 2).
Proof.
  unfold validate_explicit_content_filter; cbv zeta.
  destruct (Z.gtb_spec v 2) as [Hgt|Hle], (Z.ltb_spec v 0) as [Hlt|Hge];
    cbn [orb snd app]; (split; split; intros H);
    first [ lia | discriminate | reflexivity | by eauto
          | by destruct H | exfalso; apply H; lia ].
Qed.

(** X2: the default_message_notifications validator accepts 0 and 1 and
    nothing else: every other value, negative ones included, gives one
    error. *)
Theorem validate_default_message_notifications_binary (v : Z) (key : string) :
  ((∃ err, (validate_default_message_notifications v key).2 = [err])
     ↔ ¬ (v = 0 ∨ v = 1)) ∧
  (validate_default_message_notifications v key = ([], []) ↔ v = 0 ∨ v = 1).
Proof.
  unfold validate_default_message_notifications; cbv zeta.
  destruct (Z.eqb_spec v 0) as [H0|H0], (Z.eqb_spec v 1) as [H1|H1];
    cbn [negb andb snd app]; (split; split; intros H);
    first [ lia | discriminate | reflexivity | by eauto
          | by destruct H | exfalso; apply H; lia | tauto ].
Qed.

(** X3: in the schema of either resource, every field that has both a
    default and a validator has a default its validator accepts, without
    warnings: a configuration that leaves the field out passes validation. *)
Theorem schema_defaults_accepted (kind : ResourceKind) :
  map_Forall (λ key sch,
                match Default sch, ValidateFunc sch with
                | Some (VInt n), Some validate => validate n key = ([], [])
                | Some _, Some _ => False
                | _, _ => True
                end) (schemaOf kind).
Proof.
  apply map_Forall_to_list. destruct kind; vm_compute; repeat constructor.
Qed.

(** X4: [serverSchema] and [managedServerSchema] keep every field of
    [baseServerSchema] as it is and add exactly server_id and name, both
    strings without default or validator: server_id is computed and name
    required for a server, server_id is required and name optional for a
    managed server. *)
Theorem schemas_extend_base (kind : ResourceKind) (key : string) :
  (key ≠ "server_id" → key ≠ "name" →
   schemaOf kind !! key = baseServerSchema !! key) ∧
  baseServerSchema !! "server_id" = None ∧
  baseServerSchema !! "name" = None ∧
  schemaOf kind !! "server_id"
    = Some (match kind with
            | DiscordServer => stringField false false true
            | DiscordManagedServer => stringField false true false
            end) ∧
  schemaOf kind !! "name"
    = Some (match kind with
            | DiscordServer => stringField false true false
            | DiscordManagedServer => stringField true false false
            end).
Proof.
  split_and!.
  - intros Hid Hname. destruct kind; unfold schemaOf, serverSchema, managedServerSchema;
      cbv zeta; by rewrite !lookup_insert_ne.
  - by vm_compute.
  - by vm_compute.
  - destruct kind; by vm_compute.
  - destruct kind; by vm_compute.
Qed.

Lemma schemas_extend_base_witness :
  "region" ≠ "server_id" ∧ "region" ≠ "name" ∧
  schemaOf DiscordManagedServer !! "region" = baseServerSchema !! "region".
Proof.
  split; [discriminate|]. split; [discriminate|].
  apply (schemas_extend_base DiscordManagedServer "region"); discriminate.
Defined.

(** ** More on [resourceServerRead] *)

Lemma Set_state (d : ResourceData) (key : string) (value : Value) :
  rd_state (Set_ d key value).1 = rd_state d.
Proof.
  unfold Set_. destruct (schemaOf (rd_kind d) !! key) as [sch|]; [|done].
  by destruct (hasType value (Type_ sch)).
Qed.

(** Writing the value a field already holds changes nothing. *)
Lemma Set_same (d : ResourceData) (key : string) (value : Value) :
  rd_new d !! key = Some value → (Set_ d key value).1 = d.
Proof.
  intros Hlookup. unfold Set_. destruct (schemaOf (rd_kind d) !! key) as [sch|]; [|done].
  destruct (hasType value (Type_ sch)); [|done]. cbn [fst].
  rewrite insert_id by done. by destruct d.
Qed.

Section ReadMore.
Context `{!External} {St : Type} `{!Client St}.

(** X5: [resourceServerRead] sends exactly one request, the fetch of the
    guild named by the resource ID, whatever the outcome.  When the fetch
    fails it returns the single diagnostic "Error fetching server: "
    followed by the error and leaves the resource data as it was; when the
    fetch succeeds it returns no diagnostics.  The remote side is left as
    the fetch left it. *)
Theorem read_single_request (w : World St) :
  call <$> newEvents w (run resourceServerRead w).2
    = [ApiGetGuild (getId (Id (w_d w)))] ∧
  w_api (run resourceServerRead w).2 = (client_Get (getId (Id (w_d w))) (w_api w)).2 ∧
  match (client_Get (getId (Id (w_d w))) (w_api w)).1 with
  | Failure err =>
      (run resourceServerRead w).1
        = [{| severity := Error; Summary := "Error fetching server: " +:+ err |}] ∧
      w_d (run resourceServerRead w).2 = w_d w
  | Success _ => (run resourceServerRead w).1 = []
  end.
Proof.
  destruct w as [d api log]; cbn [w_d w_api].
  unfold run, resourceServerRead, GetGuild, newEvents. cbn [w_log]. do 3 step.
  destruct (client_Get (getId (Id d)) api) as [[server|err] api'];
    cbn [fst snd orReturn errorOf].
  2:{ step. cbn [fst snd w_d w_api w_log]. by rewrite drop_app_length. }
  do 10 step.
  destruct (negb (IsZero (Guild.AfkChannelID server))); cbn [when]; repeat step;
    match goal with |- context [when ?c _] => destruct c end;
    cbn [when]; repeat step; cbn [mret M_ret fst snd w_d w_api w_log];
    by rewrite drop_app_length.
Qed.

(** X6: [resourceServerRead] writes no field other than the ten of
    [readKeys]: every other entry of the planned attributes, the resource
    ID, the prior state and the kind of the resource are as before. *)
Theorem read_frame (w : World St) (key : string) :
  rd_id (w_d (run resourceServerRead w).2) = rd_id (w_d w) ∧
  rd_state (w_d (run resourceServerRead w).2) = rd_state (w_d w) ∧
  rd_kind (w_d (run resourceServerRead w).2) = rd_kind (w_d w) ∧
  (key ∈ readKeys ∨
   rd_new (w_d (run resourceServerRead w).2) !! key = rd_new (w_d w) !! key).
Proof.
  destruct w as [d api log]; cbn [w_d w_api].
  unfold run, resourceServerRead, GetGuild. do 3 step.
  destruct (client_Get (getId (Id d)) api) as [[server|err] api'];
    cbn [fst snd orReturn errorOf].
  2:{ step. cbn [snd w_d]. split_and!; try reflexivity. by right. }
  do 10 step.
  assert (Hne : key ∈ readKeys ∨ Forall (λ k, k ≠ key) readKeys).
  { destruct (decide (key ∈ readKeys)) as [Hin|Hnot]; [by left | right].
    apply Forall_forall. intros k Hk ->. by apply Hnot. }
  destruct (negb (IsZero (Guild.AfkChannelID server))); cbn [when]; repeat step;
    match goal with |- context [when ?c _] => destruct c end;
    cbn [when]; repeat step; cbn [mret M_ret fst snd w_d];
    rewrite !Set_id, !Set_state, !Set_kind;
    (split_and!; [reflexivity | reflexivity | reflexivity |]);
    (destruct Hne as [Hin|Hne]; [by left | right]);
    unfold readKeys in Hne; rewrite !Forall_cons in Hne;
    destruct Hne as (? & ? & ? & ? & ? & ? & ? & ? & ? & ? & _);
    by rewrite !Set_lookup_ne by assumption.
Qed.

End ReadMore.

Lemma Get_lookup_eq (d d' : ResourceData) (key : string) :
  rd_kind d = rd_kind d' → rd_new d !! key = rd_new d' !! key → Get d key = Get d' key.
Proof. intros Hkind Hnew. unfold Get, readField. by rewrite Hkind, Hnew. Qed.

Section ReadValues.
Context `{!External} {St : Type} `{!Client St}.

(** X7: when the fetch succeeds, the resource data reads afterwards, for
    name, region, the three levels, afk_timeout, icon_hash and
    splash_hash, the value of the fetched guild (unsigned values converted
    to [int]); afk_channel_id and owner_id read the text of the guild's ID
    when the guard of the source holds and their old value otherwise. *)
Theorem read_copies_guild (w : World St) (server : Guild.t) :
  (client_Get (getId (Id (w_d w))) (w_api w)).1 = Success server →
  Get (w_d (run resourceServerRead w).2) "name" = VString (Guild.Name server) ∧
  Get (w_d (run resourceServerRead w).2) "region" = VString (Guild.Region server) ∧
  Get (w_d (run resourceServerRead w).2) "verification_level"
    = VInt (to_int (Guild.VerificationLevel server)) ∧
  Get (w_d (run resourceServerRead w).2) "explicit_content_filter"
    = VInt (to_int (Guild.ExplicitContentFilter server)) ∧
  Get (w_d (run resourceServerRead w).2) "default_message_notifications"
    = VInt (to_int (Guild.DefaultMessageNotifications server)) ∧
  Get (w_d (run resourceServerRead w).2) "afk_timeout"
    = VInt (to_int (Guild.AfkTimeout server)) ∧
  Get (w_d (run resourceServerRead w).2) "icon_hash" = VString (Guild.Icon server) ∧
  Get (w_d (run resourceServerRead w).2) "splash_hash" = VString (Guild.Splash server) ∧
  Get (w_d (run resourceServerRead w).2) "afk_channel_id"
    = (if IsZero (Guild.AfkChannelID server) then Get (w_d w) "afk_channel_id"
       else VString (Snowflake_String (Guild.AfkChannelID server))) ∧
  Get (w_d (run resourceServerRead w).2) "owner_id"
    = (if bool_decide (toString (Get (w_d w) "owner_id") ≠ "")
          && negb (IsZero (Guild.OwnerID server))
       then VString (Snowflake_String (Guild.OwnerID server))
       else Get (w_d w) "owner_id").
Proof.
  destruct w as [d api log]; cbn [w_d w_api]. intros Hget.
  unfold run, resourceServerRead, GetGuild. do 3 step. rewrite Hget.
  cbn [orReturn]. do 10 step.
  destruct (IsZero (Guild.AfkChannelID server)); cbn [negb when]; repeat step;
    rewrite !Get_Set_ne by discriminate;
    destruct (bool_decide (toString (Get d "owner_id") ≠ "")
              && negb (IsZero (Guild.OwnerID server)));
    cbn [when]; repeat step; cbn [mret M_ret fst snd w_d];
    split_and!;
    repeat first [ rewrite Get_Set_string by key_in
                 | rewrite Get_Set_int by key_in
                 | rewrite Get_Set_ne by discriminate ];
    reflexivity.
Qed.

End ReadValues.

Lemma read_copies_guild_witness :
  let w := Mock.start (Mock.resource Mock.applied Mock.applied) (Mock.existing 7%N) in
  (client_Get (getId (Id (w_d w))) (w_api w)).1 = Success (Mock.guild1000 7%N) ∧
  Get (w_d (run resourceServerRead w).2) "name" = VString "srv".
Proof.
  intros w.
  assert (Hget : (client_Get (getId (Id (w_d w))) (w_api w)).1
                 = Success (Mock.guild1000 7%N)) by reflexivity.
  split; [exact Hget|].
  exact (proj1 (read_copies_guild w (Mock.guild1000 7%N) Hget)).
Defined.

Section ReadTwice.
Context `{!External} {St : Type} `{!Client St}.

(** The entries [resourceServerRead] leaves when the fetch succeeds. *)
Lemma read_lookups (w : World St) (server : Guild.t) :
  (client_Get (getId (Id (w_d w))) (w_api w)).1 = Success server →
  rd_kind (w_d (run resourceServerRead w).2) = rd_kind (w_d w) ∧
  rd_id (w_d (run resourceServerRead w).2) = rd_id (w_d w) ∧
  Forall (λ kv, rd_new (w_d (run resourceServerRead w).2) !! kv.1 = Some kv.2)
    [("name", VString (Guild.Name server));
     ("region", VString (Guild.Region server));
     ("default_message_notifications",
      VInt (to_int (Guild.DefaultMessageNotifications server)));
     ("afk_timeout", VInt (to_int (Guild.AfkTimeout server)));
     ("icon_hash", VString (Guild.Icon server));
     ("splash_hash", VString (Guild.Splash server));
     ("verification_level", VInt (to_int (Guild.VerificationLevel server)));
     ("explicit_content_filter", VInt (to_int (Guild.ExplicitContentFilter server)))] ∧
  rd_new (w_d (run resourceServerRead w).2) !! "afk_channel_id" =
    (if IsZero (Guild.AfkChannelID server)
     then rd_new (w_d w) !! "afk_channel_id"
     else Some (VString (Snowflake_String (Guild.AfkChannelID server)))) ∧
  rd_new (w_d (run resourceServerRead w).2) !! "owner_id" =
    (if bool_decide (toString (Get (w_d w) "owner_id") ≠ "")
        && negb (IsZero (Guild.OwnerID server))
     then Some (VString (Snowflake_String (Guild.OwnerID server)))
     else rd_new (w_d w) !! "owner_id").
Proof.
  destruct w as [d api log]; cbn [w_d w_api]. intros Hget.
  unfold run, resourceServerRead, GetGuild. do 3 step. rewrite Hget.
  cbn [orReturn]. do 10 step.
  destruct (IsZero (Guild.AfkChannelID server)); cbn [negb when]; repeat step;
    rewrite !Get_Set_ne by discriminate;
    destruct (bool_decide (toString (Get d "owner_id") ≠ "")
              && negb (IsZero (Guild.OwnerID server)));
    cbn [when]; repeat step; cbn [mret M_ret fst snd w_d];
    rewrite !Set_kind, !Set_id, !Forall_cons, Forall_nil; cbn [fst snd];
    split_and!; try exact I;
    repeat first [ rewrite Set_lookup_string by key_in
                 | rewrite Set_lookup_int by key_in
                 | rewrite Set_lookup_ne by discriminate ];
    reflexivity.
Qed.

(** A resource data that already holds what the guild gives is left as it
    is. *)
Lemma read_fixpoint (w : World St) (server : Guild.t) :
  (client_Get (getId (Id (w_d w))) (w_api w)).1 = Success server →
  Forall (λ kv, rd_new (w_d w) !! kv.1 = Some kv.2)
    [("name", VString (Guild.Name server));
     ("region", VString (Guild.Region server));
     ("default_message_notifications",
      VInt (to_int (Guild.DefaultMessageNotifications server)));
     ("afk_timeout", VInt (to_int (Guild.AfkTimeout server)));
     ("icon_hash", VString (Guild.Icon server));
     ("splash_hash", VString (Guild.Splash server));
     ("verification_level", VInt (to_int (Guild.VerificationLevel server)));
     ("explicit_content_filter", VInt (to_int (Guild.ExplicitContentFilter server)))] →
  (IsZero (Guild.AfkChannelID server) = false →
   rd_new (w_d w) !! "afk_channel_id"
   = Some (VString (Snowflake_String (Guild.AfkChannelID server)))) →
  (bool_decide (toString (Get (w_d w) "owner_id") ≠ "")
     && negb (IsZero (Guild.OwnerID server)) = true →
   rd_new (w_d w) !! "owner_id"
   = Some (VString (Snowflake_String (Guild.OwnerID server)))) →
  w_d (run resourceServerRead w).2 = w_d w.
Proof.
  destruct w as [d api log]; cbn [w_d w_api]. intros Hget Hall Hafk Hown.
  rewrite !Forall_cons, Forall_nil in Hall. cbn [fst snd] in Hall.
  destruct Hall as (Hname & Hregion & Hnotif & Htimeout & Hicon & Hsplash & Hlevel
                    & Hfilter & _).
  unfold run, resourceServerRead, GetGuild. do 3 step. rewrite Hget.
  cbn [orReturn]. do 10 step.
  rewrite (Set_same d "name") by done. rewrite (Set_same d "region") by done.
  rewrite (Set_same d "default_message_notifications") by done.
  rewrite (Set_same d "afk_timeout") by done. rewrite (Set_same d "icon_hash") by done.
  rewrite (Set_same d "splash_hash") by done.
  rewrite (Set_same d "verification_level") by done.
  rewrite (Set_same d "default_message_notifications") by done.
  rewrite (Set_same d "explicit_content_filter") by done.
  destruct (IsZero (Guild.AfkChannelID server)); cbn [negb when]; repeat step;
    rewrite ?(Set_same d "afk_channel_id") by auto;
    destruct (bool_decide (toString (Get d "owner_id") ≠ "")
              && negb (IsZero (Guild.OwnerID server)));
    cbn [when]; repeat step; cbn [mret M_ret fst snd w_d];
    rewrite ?(Set_same d "owner_id") by auto; reflexivity.
Qed.

(** X8: reading is idempotent.  When two reads in a row fetch the same
    guild, the second leaves the resource data exactly as the first left
    it. *)
Theorem read_idempotent (w : World St) (server : Guild.t) :
  (client_Get (getId (Id (w_d w))) (w_api w)).1 = Success server →
  (client_Get (getId (Id (w_d (run resourceServerRead w).2)))
              (w_api (run resourceServerRead w).2)).1 = Success server →
  w_d (run resourceServerRead (run resourceServerRead w).2).2
  = w_d (run resourceServerRead w).2.
Proof.
  intros Hget1 Hget2.
  destruct (read_lookups w server Hget1) as (Hkind & Hid & Hall & Hafk & Hown).
  set (w1 := (run resourceServerRead w).2) in *.
  apply (read_fixpoint w1 server Hget2 Hall).
  - intros Hzero. by rewrite Hafk, Hzero.
  - intros Hcond. rewrite Hown.
    destruct (bool_decide (toString (Get (w_d w) "owner_id") ≠ "")
              && negb (IsZero (Guild.OwnerID server))) eqn:Hcond0; [done|].
    assert (Heq : Get (w_d w1) "owner_id" = Get (w_d w) "owner_id")
      by (apply Get_lookup_eq; [exact Hkind | exact Hown]).
    rewrite Heq in Hcond. congruence.
Qed.

End ReadTwice.

Lemma read_idempotent_witness :
  let w := Mock.start (Mock.resource Mock.applied ∅) (Mock.existing 7%N) in
  (client_Get (getId (Id (w_d w))) (w_api w)).1 = Success (Mock.guild1000 7%N) ∧
  (client_Get (getId (Id (w_d (run resourceServerRead w).2)))
              (w_api (run resourceServerRead w).2)).1 = Success (Mock.guild1000 7%N) ∧
  w_d (run resourceServerRead (run resourceServerRead w).2).2
  = w_d (run resourceServerRead w).2.
Proof.
  intros w.
  assert (Hget1 : (client_Get (getId (Id (w_d w))) (w_api w)).1
                  = Success (Mock.guild1000 7%N)) by reflexivity.
  assert (Hget2 : (client_Get (getId (Id (w_d (run resourceServerRead w).2)))
                              (w_api (run resourceServerRead w).2)).1
                  = Success (Mock.guild1000 7%N)) by (vm_compute; reflexivity).
  split; [exact Hget1|]. split; [exact Hget2|].
  exact (read_idempotent w (Mock.guild1000 7%N) Hget1 Hget2).
Defined.

(** ** More on [resourceServerCreate] *)

Section CreateMore.
Context `{!External} {St : Type} `{!Client St}.



(** The requests of the [if edit] block when an AFK timeout is set. *)
Lemma create_edit_calls_timeout (d : ResourceData) (server : Guild.t) :
  toInt (Get d "afk_timeout") ≠ 0 →
  create_edit_calls d server
  = [ApiUpdate (Guild.ID server)
       {| UpdateGuild.Splash := Some (create_splash d);
          UpdateGuild.AFKChannelID :=
            Some (if (GetOk d "afk_channel_id").2
                  then ParseSnowflakeString (toString (Get d "afk_channel_id"))
                  else Guild.AfkChannelID server);
          UpdateGuild.OwnerID := None |};
     ApiExecute (Guild.ID server)
       (UpdateBuilder.SetAfkTimeout (to_int (to_uint (toInt (Get d "afk_timeout"))))
          UpdateBuilder.new)].
Proof.
  intros Hv. unfold create_edit_calls, create_edit.
  rewrite (GetOk_string d "afk_channel_id") by key_in.
  rewrite (GetOk_int d "afk_timeout") by key_in.
  rewrite (bool_decide_eq_true_2 _ Hv). cbn [snd].
  by destruct (bool_decide (toString (Get d "afk_channel_id") ≠ "")).
Qed.

(** X10: the cast of the AFK timeout is safe.  For an afk_timeout that is
    a non-zero Go [int], the conversion to [uint] and back gives the value
    itself, negative values included: the executed builder carries exactly
    the configured timeout, after the update of splash and AFK channel. *)
Theorem create_afk_timeout_cast (d : ResourceData) (server : Guild.t) (v : Z) :
  Get d "afk_timeout" = VInt v → v ≠ 0 → -2 ^ 63 ≤ v < 2 ^ 63 →
  create_edit_calls d server
  = [ApiUpdate (Guild.ID server)
       {| UpdateGuild.Splash := Some (create_splash d);
          UpdateGuild.AFKChannelID :=
            Some (if (GetOk d "afk_channel_id").2
                  then ParseSnowflakeString (toString (Get d "afk_channel_id"))
                  else Guild.AfkChannelID server);
          UpdateGuild.OwnerID := None |};
     ApiExecute (Guild.ID server) (UpdateBuilder.SetAfkTimeout v UpdateBuilder.new)].
Proof.
  intros Hget Hv Hrange.
  rewrite create_edit_calls_timeout by (by rewrite Hget).
  by rewrite Hget, to_int_to_uint.
Qed.

(** X11: a configuration that leaves afk_timeout out still has the two
    edit requests sent.  The schema default 300 makes [d.GetOk] report the
    field as set, so [edit] is true whatever else is configured, and the
    builder sets the AFK timeout to 300. *)
Theorem create_default_timeout_edits (d : ResourceData) (server : Guild.t) :
  rd_new d !! "afk_timeout" = None →
  create_edit_calls d server
  = [ApiUpdate (Guild.ID server)
       {| UpdateGuild.Splash := Some (create_splash d);
          UpdateGuild.AFKChannelID :=
            Some (if (GetOk d "afk_channel_id").2
                  then ParseSnowflakeString (toString (Get d "afk_channel_id"))
                  else Guild.AfkChannelID server);
          UpdateGuild.OwnerID := None |};
     ApiExecute (Guild.ID server) (UpdateBuilder.SetAfkTimeout 300 UpdateBuilder.new)].
Proof.
  intros Hnone.
  assert (Hget : Get d "afk_timeout" = VInt 300).
  { unfold Get, readField. rewrite Hnone. by destruct (rd_kind d). }
  rewrite create_edit_calls_timeout by (by rewrite Hget).
  by rewrite Hget.
Qed.

End CreateMore.

Lemma create_afk_timeout_cast_witness :
  let d := Mock.planned (<["afk_timeout" := VInt (-60)]> ∅) in
  Get d "afk_timeout" = VInt (-60) ∧ -60 ≠ 0 ∧ -2 ^ 63 ≤ -60 < 2 ^ 63 ∧
  create_edit_calls d (Mock.guild1000 1%N)
  = [ApiUpdate 1000%N
       {| UpdateGuild.Splash := Some ""; UpdateGuild.AFKChannelID := Some 0%N;
          UpdateGuild.OwnerID := None |};
     ApiExecute 1000%N (UpdateBuilder.SetAfkTimeout (-60) UpdateBuilder.new)].
Proof.
  intros d.
  assert (Hget : Get d "afk_timeout" = VInt (-60)) by reflexivity.
  assert (Hv : -60 ≠ 0) by lia.
  assert (Hrange : -2 ^ 63 ≤ -60 < 2 ^ 63) by lia.
  split; [exact Hget|]. split; [exact Hv|]. split; [exact Hrange|].
  exact (create_afk_timeout_cast d (Mock.guild1000 1%N) (-60) Hget Hv Hrange).
Defined.

Lemma create_default_timeout_edits_witness :
  let d := Mock.planned (<["name" := VString "srv"]> ∅) in
  rd_new d !! "afk_timeout" = None ∧
  create_edit_calls d (Mock.guild1000 1%N)
  = [ApiUpdate 1000%N
       {| UpdateGuild.Splash := Some ""; UpdateGuild.AFKChannelID := Some 0%N;
          UpdateGuild.OwnerID := None |};
     ApiExecute 1000%N (UpdateBuilder.SetAfkTimeout 300 UpdateBuilder.new)].
Proof.
  intros d.
  assert (Hnone : rd_new d !! "afk_timeout" = None) by reflexivity.
  split; [exact Hnone|].
  exact (create_default_timeout_edits d (Mock.guild1000 1%N) Hnone).
Defined.

(** ** More on the builder of [resourceServerUpdate] *)

Ltac builder_cbn :=
  cbn [UpdateBuilder.name UpdateBuilder.region UpdateBuilder.verification_level
       UpdateBuilder.default_message_notifications
       UpdateBuilder.explicit_content_filter UpdateBuilder.afk_channel_id
       UpdateBuilder.afk_timeout UpdateBuilder.icon UpdateBuilder.owner_id
       UpdateBuilder.splash UpdateBuilder.new UpdateBuilder.SetName
       UpdateBuilder.SetRegion UpdateBuilder.SetVerificationLevel
       UpdateBuilder.SetDefaultMessageNotifications
       UpdateBuilder.SetExplicitContentFilter UpdateBuilder.SetAfkChannelID
       UpdateBuilder.SetAfkTimeout UpdateBuilder.SetIcon UpdateBuilder.SetOwnerID
       fst snd].

Section BuilderFields.
Context `{!External}.

Lemma ifThenSet_keeps {A} (proj : UpdateBuilder.t → A) cond set s :
  (∀ b, proj (set b) = proj b) → proj (ifThenSet cond set s).1 = proj s.1.
Proof. intros Hset. destruct cond; [apply Hset | done]. Qed.

Lemma ifThenSet_sets {A} (proj : UpdateBuilder.t → A) cond set s :
  proj (ifThenSet cond set s).1 = if cond then proj (set s.1) else proj s.1.
Proof. by destruct cond. Qed.

(** X12: for name, region, afk_channel_id, afk_timeout and the three
    levels, the builder of an update carries the new value of the
    attribute exactly when that attribute has changed, and nothing for it
    otherwise. *)
Theorem update_builder_plain_fields (d : ResourceData) (server : Guild.t) :
  UpdateBuilder.name (update_builder d server).1
    = (if HasChange d "name" then Some (toString (Get d "name")) else None) ∧
  UpdateBuilder.region (update_builder d server).1
    = (if HasChange d "region" then Some (toString (Get d "region")) else None) ∧
  UpdateBuilder.afk_channel_id (update_builder d server).1
    = (if HasChange d "afk_channel_id"
       then Some (ParseSnowflakeString (toString (Get d "afk_channel_id")))
       else None) ∧
  UpdateBuilder.afk_timeout (update_builder d server).1
    = (if HasChange d "afk_timeout" then Some (toInt (Get d "afk_timeout")) else None) ∧
  UpdateBuilder.verification_level (update_builder d server).1
    = (if HasChange d "verification_level"
       then Some (toInt (Get d "verification_level")) else None) ∧
  UpdateBuilder.default_message_notifications (update_builder d server).1
    = (if HasChange d "default_message_notifications"
       then Some (to_uint (toInt (Get d "default_message_notifications")))
       else None) ∧
  UpdateBuilder.explicit_content_filter (update_builder d server).1
    = (if HasChange d "explicit_content_filter"
       then Some (to_uint (toInt (Get d "explicit_content_filter")))
       else None).
Proof.
  unfold update_builder. destruct (GetOk d "owner_id") as [ownerId hasOwner].
  split_and!; destruct (HasChange d "owner_id");
    rewrite ?ifThenSet_keeps by done; rewrite ifThenSet_sets; builder_cbn;
    rewrite ?ifThenSet_keeps by done; reflexivity.
Qed.

(** X13: the icon of the builder is decided by the last of the four image
    attributes that has changed, in the order icon_url, icon_data_uri,
    splash_url, splash_data_uri: a changed splash overrides a changed icon,
    a data URI overrides the URL of its kind, and the icon is left out only
    when none of the four has changed. *)
Theorem update_builder_icon (d : ResourceData) (server : Guild.t) :
  UpdateBuilder.icon (update_builder d server).1
  = if HasChange d "splash_data_uri" then Some (toString (Get d "splash_data_uri"))
    else if HasChange d "splash_url"
         then Some (FromRemote (toString (Get d "splash_url")))
    else if HasChange d "icon_data_uri" then Some (toString (Get d "icon_data_uri"))
    else if HasChange d "icon_url" then Some (FromRemote (toString (Get d "icon_url")))
    else None.
Proof.
  unfold update_builder. destruct (GetOk d "owner_id") as [ownerId hasOwner].
  destruct (HasChange d "owner_id");
    rewrite !(ifThenSet_keeps UpdateBuilder.icon) by done;
    repeat (rewrite (ifThenSet_sets UpdateBuilder.icon); builder_cbn);
    reflexivity.
Qed.

(** X14: the owner of the builder.  With owner_id set, the builder carries
    [getId] of it when it has changed and the owner of the fetched guild
    when it has not.  With owner_id unset or empty, the builder carries no
    owner when it has not changed, and the snowflake parsed from the empty
    value when it has changed, that is, when the owner was removed from
    the configuration. *)
Theorem update_builder_owner (d : ResourceData) (server : Guild.t) :
  UpdateBuilder.owner_id (update_builder d server).1
  = match HasChange d "owner_id", (GetOk d "owner_id").2 with
    | true, true => Some (getId (toString (GetOk d "owner_id").1))
    | true, false => Some (ParseSnowflakeString (toString (Get d "owner_id")))
    | false, true => Some (Guild.OwnerID server)
    | false, false => None
    end.
Proof.
  unfold update_builder. destruct (GetOk d "owner_id") as [ownerId hasOwner].
  cbn [fst snd].
  destruct (HasChange d "owner_id"), hasOwner; cbn [ifThenSet fst snd]; builder_cbn;
    rewrite ?(ifThenSet_keeps UpdateBuilder.owner_id) by done; try reflexivity;
    rewrite (ifThenSet_sets UpdateBuilder.owner_id); builder_cbn;
    rewrite ?(ifThenSet_keeps UpdateBuilder.owner_id) by done; reflexivity.
Qed.

End BuilderFields.

(** ** What the managed resource never sends *)

Section OnlyCalls.
Context {St : Type} (P : ApiCall → Prop).

Lemma onlyCalls_silent {A} (m : M St A) :
  (∀ w, w_log (m w).2 = w_log w) → onlyCalls P m.
Proof. intros Hlog w. exists []. by rewrite Hlog, app_nil_r. Qed.

Lemma onlyCalls_bind {A B} (m : M St A) (f : A → M St B) :
  onlyCalls P m → (∀ a, onlyCalls P (f a)) → onlyCalls P (m ≫= f).
Proof.
  intros Hm Hf w. destruct (Hm w) as (l1 & Hlog1 & Hall1).
  rewrite bind_run. destruct (m w) as [[a|diags] w1]; cbn [snd] in *.
  - destruct (Hf a w1) as (l2 & Hlog2 & Hall2).
    exists (l1 ++ l2). rewrite Hlog2, Hlog1, app_assoc. split; [done|].
    by apply Forall_app.
  - by exists l1.
Qed.

Lemma onlyCalls_request {A} (c : ApiCall) (method : St → result A * St) :
  P c → onlyCalls P (request c method).
Proof.
  intros Hc w. unfold request. destruct (method (w_api w)) as [r api]. cbn [snd w_log].
  eexists. split; [done|]. by repeat constructor.
Qed.

Lemma onlyCalls_orReturn {A} (format : string) (r : result A) :
  onlyCalls P (orReturn format r : M St A).
Proof. apply onlyCalls_silent. by destruct r. Qed.

Lemma onlyCalls_when (cond : bool) (body : M St unit) :
  onlyCalls P body → onlyCalls P (when cond body).
Proof. intros Hbody. destruct cond; [done | by apply onlyCalls_silent]. Qed.

End OnlyCalls.

Section Managed.
Context `{!External} {St : Type} `{!Client St}.

Lemma resourceServerRead_onlyCalls :
  onlyCalls isFetchOrExecute (resourceServerRead (St := St)).
Proof.
  unfold resourceServerRead, GetGuild.
  repeat first
    [ apply onlyCalls_request; exact I
    | apply onlyCalls_orReturn
    | apply onlyCalls_when
    | apply onlyCalls_bind; [|intros ?]
    | apply onlyCalls_silent; reflexivity ].
Qed.

Lemma resourceServerUpdate_onlyCalls :
  onlyCalls isFetchOrExecute (resourceServerUpdate (St := St)).
Proof.
  unfold resourceServerUpdate, GetGuild, Execute.
  apply onlyCalls_bind; [by apply onlyCalls_silent | intros d].
  apply onlyCalls_bind; [|intros server].
  { apply onlyCalls_bind; [by apply onlyCalls_request | intros r].
    apply onlyCalls_orReturn. }
  destruct (update_builder d server) as [builder edit].
  apply onlyCalls_bind; [|intros _; by apply onlyCalls_silent].
  apply onlyCalls_when.
  apply onlyCalls_bind; [|intros _; by apply onlyCalls_silent].
  apply onlyCalls_bind; [by apply onlyCalls_request | intros r].
  apply onlyCalls_orReturn.
Qed.

Lemma resourceServerManagedCreate_silent (w : World St) :
  w_log (resourceServerManagedCreate w).2 = w_log w.
Proof.
  unfold resourceServerManagedCreate. step.
  by destruct (GetOk (w_d w) "server_id") as [[|serverId|n] [|]].
Qed.

(** X15: no handler of [discord_managed_server] ever creates or deletes a
    guild or a channel: every request a managed server sends, over its
    whole life cycle, is the fetch of a guild or the execution of an update
    builder. *)
Theorem managed_never_creates_or_deletes (op : Operation) (w : World St) :
  Forall (λ e, isFetchOrExecute (call e))
         (newEvents w (run (handler DiscordManagedServer op) w).2).
Proof.
  assert (Hall : onlyCalls isFetchOrExecute (handler (St := St) DiscordManagedServer op)).
  { destruct op; cbn [handler].
    - apply onlyCalls_silent, resourceServerManagedCreate_silent.
    - apply resourceServerRead_onlyCalls.
    - apply resourceServerUpdate_onlyCalls.
    - by apply onlyCalls_silent. }
  destruct (Hall w) as (l & Hlog & Hl). unfold run.
  destruct (handler DiscordManagedServer op w) as [[diags|diags] w']; cbn [snd] in *;
    by rewrite (newEvents_app _ _ _ Hlog).
Qed.

(** X16: a managed server is adopted without a request, and its first
    read fetches it.  When server_id is set, [resourceServerManagedCreate]
    followed by [resourceServerRead] sends exactly one request, the fetch
    of the guild [getId] of that server_id. *)
Theorem managed_create_then_read (w : World St) (serverId : string) :
  GetOk (w_d w) "server_id" = (VString serverId, true) →
  (run resourceServerManagedCreate w).1 = [] ∧
  call <$> newEvents w (run resourceServerRead (run resourceServerManagedCreate w).2).2
    = [ApiGetGuild (getId serverId)].
Proof.
  intros Hid. destruct w as [d api log]; cbn [w_d] in Hid.
  assert (Hcreate : run resourceServerManagedCreate {| w_d := d; w_api := api; w_log := log |}
                    = ([], {| w_d := SetId d serverId; w_api := api; w_log := log |})).
  { unfold run, resourceServerManagedCreate. step. rewrite Hid. cbn [negb].
    by step. }
  rewrite Hcreate. cbn [fst snd]. split; [reflexivity|].
  unfold run, resourceServerRead, GetGuild, newEvents. cbn [w_log]. do 3 step.
  change (Id (SetId d serverId)) with serverId.
  destruct (client_Get (getId serverId) api) as [[server|err] api'];
    cbn [fst snd orReturn errorOf].
  2:{ step. cbn [fst snd w_log]. by rewrite drop_app_length. }
  do 10 step.
  destruct (negb (IsZero (Guild.AfkChannelID server))); cbn [when]; repeat step;
    match goal with |- context [when ?c _] => destruct c end;
    cbn [when]; repeat step; cbn [mret M_ret fst snd w_log];
    by rewrite drop_app_length.
Qed.

End Managed.

Lemma managed_create_then_read_witness :
  let d := Mock.managed ∅ (<["server_id" := VString "1000"]> ∅) in
  let w := Mock.start d (Mock.existing 7%N) in
  GetOk (w_d w) "server_id" = (VString "1000", true) ∧
  (run resourceServerManagedCreate w).1 = [] ∧
  call <$> newEvents w (run resourceServerRead (run resourceServerManagedCreate w).2).2
    = [ApiGetGuild (getId "1000")].
Proof.
  intros d w.
  assert (Hid : GetOk (w_d w) "server_id" = (VString "1000", true)) by reflexivity.
  split; [exact Hid|].
  exact (managed_create_then_read w "1000" Hid).
Defined.

(** ** Which diagnostic a failed request gives *)

Section Reports.
Context {St : Type}.

Lemma reports_silent {A} (m : M St A) : (∀ w, w_log (m w).2 = w_log w) → reports m.
Proof. intros Hlog w. exists []. rewrite Hlog, app_nil_r. split; [done | by left]. Qed.

Lemma reports_bind {A B} (m : M St A) (f : A → M St B) :
  reports m → (∀ a, reports (f a)) → reports (m ≫= f).
Proof.
  intros Hm Hf w. destruct (Hm w) as (l1 & Hlog1 & Hout1).
  rewrite bind_run. destruct (m w) as [[a|diags] w1] eqn:Hmw; cbn [fst snd] in *.
  - destruct Hout1 as [Hl1|(l0 & c & err & _ & _ & Hret)]; [|discriminate].
    destruct (Hf a w1) as (l2 & Hlog2 & Hout2).
    exists (l1 ++ l2). rewrite Hlog2, Hlog1, app_assoc. split; [done|].
    destruct Hout2 as [Hl2|(l0 & c & err & -> & Hl0 & Hret)].
    + left. by apply Forall_app.
    + right. exists (l1 ++ l0), c, err. rewrite app_assoc.
      split_and!; [done | by apply Forall_app | done].
  - exists l1. split; [done|].
    destruct Hout1 as [Hl1|(l0 & c & err & Hl & Hl0 & Hret)]; [by left | right].
    exists l0, c, err. split_and!; [done | done |]. by injection Hret as ->.
Qed.

Lemma reports_request {A} (c : ApiCall) (method : St → result A * St) (format : string) :
  format = diagnosticPrefix c → reports (request c method ≫= orReturn format).
Proof.
  intros -> w. rewrite bind_request.
  destruct (method (w_api w)) as [[a|err] api]; cbn [fst snd orReturn errorOf].
  - eexists. split; [done|]. left. by repeat constructor.
  - eexists. split; [done|]. right. by exists [], c, err.
Qed.

Lemma reports_when (cond : bool) (body : M St unit) :
  reports body → reports (when cond body).
Proof. intros Hbody. destruct cond; [done | by apply reports_silent]. Qed.

Lemma reports_forRange {A} (l : list A) (body : A → M St unit) :
  (∀ x, reports (body x)) → reports (forRange l body).
Proof.
  intros Hbody. induction l as [|x rest IH]; cbn [forRange].
  - by apply reports_silent.
  - apply reports_bind; [apply Hbody | intros _; apply IH].
Qed.

End Reports.

Ltac reports_steps :=
  unfold CreateGuild, GetChannels, DeleteChannel, Update, Execute, GetGuild, DeleteGuild;
  repeat match goal with
    | |- reports (let '(_, _) := ?p in _) => destruct p
    | |- reports (mret _) => by apply reports_silent
    | |- reports (returnDiags _) => by apply reports_silent
    | |- reports getData => by apply reports_silent
    | |- reports (d_SetId _) => by apply reports_silent
    | |- reports (d_Set _ _) => by apply reports_silent
    | |- reports (when _ _) => apply reports_when
    | |- reports (forRange _ _) => apply reports_forRange; intros ?
    | |- reports (request _ _ ≫= orReturn _) => apply reports_request; reflexivity
    | |- reports (_ ≫= _) => apply reports_bind; [|intros ?]
    end.

Section HandlersReport.
Context `{!External} {St : Type} `{!Client St}.

Lemma handler_reports (kind : ResourceKind) (op : Operation) :
  reports (handler (St := St) kind op).
Proof.
  destruct kind, op; cbn [handler].
  - unfold resourceServerCreate, create_edit_requests, create_owner_request,
      create_state. reports_steps.
  - unfold resourceServerRead. reports_steps.
  - unfold resourceServerUpdate. reports_steps.
  - unfold resourceServerDelete. reports_steps.
  - apply reports_silent. intros w. unfold resourceServerManagedCreate. step.
    by destruct (GetOk (w_d w) "server_id") as [[|serverId|n] [|]].
  - unfold resourceServerRead. reports_steps.
  - unfold resourceServerUpdate. reports_steps.
  - by apply reports_silent.
Qed.

(** X17: the diagnostic of a failed request names its stage.  In every
    handler, when a request fails the single diagnostic returned is the
    text fixed for that kind of request ("Failed to create server: ",
    "Failed to fetch channels for new server: ", "Failed to delete channel
    for new server: ", "Failed to edit server: ", "Error fetching server: "
    or "Failed to delete server: ") followed by the text of the error. *)
Theorem failed_request_diagnostic (kind : ResourceKind) (op : Operation) (w : World St)
    (i : nat) (c : ApiCall) (err : error) :
  newEvents w (run (handler kind op) w).2 !! i = Some {| call := c; failed := Some err |} →
  (run (handler kind op) w).1
  = [{| severity := Error; Summary := diagnosticPrefix c +:+ err |}].
Proof.
  destruct (handler_reports kind op w) as (l & Hlog & Hout).
  unfold run. destruct (handler kind op w) as [[diags|diags] w'] eqn:Hrun;
    cbn [fst snd] in *; rewrite (newEvents_app _ _ _ Hlog); intros Hi.
  - destruct Hout as [Hl|(l0 & c0 & err0 & _ & _ & Hret)]; [|discriminate].
    eapply Forall_lookup_1 in Hl; [|exact Hi]. discriminate.
  - destruct Hout as [Hl|(l0 & c0 & err0 & -> & Hl0 & Hret)].
    { eapply Forall_lookup_1 in Hl; [|exact Hi]. discriminate. }
    destruct (decide (i < length l0)%nat) as [Hlt|Hge].
    { rewrite lookup_app_l in Hi by done.
      eapply Forall_lookup_1 in Hl0; [|exact Hi]. discriminate. }
    assert (i = length l0) as ->.
    { apply lookup_lt_Some in Hi. rewrite length_app in Hi. cbn in Hi. lia. }
    rewrite list_lookup_middle in Hi by done.
    injection Hi as -> ->. by injection Hret as ->.
Qed.

End HandlersReport.

(** Deleting a guild the in-memory Discord does not hold. *)
Lemma failed_request_diagnostic_witness :
  let w := Mock.start (Mock.resource Mock.applied Mock.applied) Mock.init in
  newEvents w (run (handler DiscordServer DeleteContext) w).2 !! 0%nat
    = Some {| call := ApiDeleteGuild 1000%N; failed := Some "Unknown Guild" |} ∧
  (run (handler DiscordServer DeleteContext) w).1
  = [{| severity := Error;
        Summary := diagnosticPrefix (ApiDeleteGuild 1000%N) +:+ "Unknown Guild" |}].
Proof.
  intros w.
  assert (Hfailed : newEvents w (run (handler DiscordServer DeleteContext) w).2 !! 0%nat
            = Some {| call := ApiDeleteGuild 1000%N; failed := Some "Unknown Guild" |})
    by (vm_compute; reflexivity).
  split; [exact Hfailed|].
  exact (failed_request_diagnostic DiscordServer DeleteContext w 0
           (ApiDeleteGuild 1000%N) "Unknown Guild" Hfailed).
Defined.
